(** * Supervisor loop and health endpoint of the Discord bot launcher

    A shallow embedding of [src/main.py]: the supervisor thread
    [run_discord_bot] (start-up imports, fatal-error recovery, connection
    attempts, exception handlers, back-off) and the reporter's
    [update_bot_status] and [health_check].

    Conventions.
    - A [datetime] is a number of microseconds (the resolution of Python's
      [datetime]); a [timedelta] is their difference and [total_seconds]
      is that difference divided by 10^6, as a rational.
    - A float is the rational it denotes.  The one float operation whose
      rounding the code can see, the product of main.py:188, is rounded
      to the nearest binary64 number ([round_double]); the comparisons of
      [total_seconds()] with 600 and 120 and the divisions of
      [calculate_uptime] are exact at the microsecond resolution of the
      clock.
    - Everything the loop obtains from outside (imports, [check_token],
      [create_bot], [run], the clock, the shutdown event, the jitter) is
      an oracle answer collected in the record [env], one per iteration.
    - The supervisor emits a trace of [event]s; the events that carry a
      [globals] value are the points at which another thread can see the
      shared variables. *)

From Stdlib Require Import String List ZArith QArith Qround Bool Arith Lia.
From Stdlib Require Import DecimalString.
Import ListNotations.
Close Scope Q_scope.
Open Scope string_scope.

(** ** Time *)

Definition datetime := Z.
Definition timedelta := Z.

(** [timedelta.total_seconds()] *)
Definition total_seconds (d : timedelta) : Q := d # 1000000.

(** [x > n] for a duration in seconds [x] and an integer literal [n] *)
Definition exceeds (x : Q) (n : Z) : bool := negb (Qle_bool x (inject_Z n)).

(** ** Python values *)

(** Truth value of a string: empty is false. *)
Definition truthy (s : string) : bool :=
  match s with EmptyString => false | String _ _ => true end.

(** [needle in hay] *)
Fixpoint contains (needle hay : string) : bool :=
  prefix needle hay ||
  match hay with
  | EmptyString => false
  | String _ rest => contains needle rest
  end.

(** [int(x)] of a float: truncation towards zero. *)
Definition py_int (x : Q) : Z := Z.quot (Qnum x) (Zpos (Qden x)).

(** Rounding to the nearest integer, ties to the even one. *)
Definition rne (q : Q) : Z :=
  let f := Qfloor q in
  match Qcompare (q - inject_Z f) (1 # 2) with
  | Lt => f
  | Gt => (f + 1)%Z
  | Eq => if Z.even f then f else (f + 1)%Z
  end.

(** The exponent [e] with [2^e <= x < 2^(e+1)], for a positive [x]. *)
Definition ilog2 (x : Q) : Z :=
  if Qle_bool 1 x then Z.log2 (Qfloor x)
  else (- Z.log2_up (Qceiling (/ x)))%Z.

(** The float nearest to a positive real [x], ties to even: [x] is
    rounded to a multiple of [2^(e-52)], which leaves the 53 significant
    bits of binary64.  The range of the exponent is not modelled; the
    products of the code lie between 1 and 360. *)
Definition round_positive (x : Q) : Q :=
  let s := (52 - ilog2 x)%Z in
  if (0 <=? s)%Z
  then rne (x * inject_Z (2 ^ s)) # Z.to_pos (2 ^ s)
  else inject_Z (rne (x / inject_Z (2 ^ (- s))) * 2 ^ (- s)).

(** The result of a float operation whose exact value is [x]. *)
Definition round_double (x : Q) : Q :=
  match Qcompare x 0 with
  | Gt => round_positive x
  | Eq => 0%Q
  | Lt => (- round_positive (- x))%Q
  end.

(** An exception object: [type(e).__name__], [str(e)], and the two
    [isinstance] tests the code performs on it. *)
Record exn := mkExn {
  exn_name : string;
  exn_str : string;
  exn_is_BotConfigurationError : bool;
  exn_is_ImportError : bool
}.

(** What the local name [BotConfigurationError] is bound to: the
    fall-back [Exception] (main.py:57) or the class of the [bot] module
    (main.py:62). *)
Inductive exc_class := ClsException | ClsBotConfigurationError.

(** Does [except cls] catch [e]?  Every exception modelled here derives
    from [Exception]. *)
Definition isinstance (e : exn) (cls : exc_class) : bool :=
  match cls with
  | ClsException => true
  | ClsBotConfigurationError => exn_is_BotConfigurationError e
  end.

Inductive outcome (A : Type) :=
| Returns (a : A)
| Raises (e : exn).
Arguments Returns {A} a.
Arguments Raises {A} e.

(** The three import statements of main.py:61-63 and 96-98. *)
Inductive import_stage := AtBot | AtBotConfigurationError | AtDiscord.

Inductive import_result :=
| ImportOk
| ImportFails (stage : import_stage) (e : exn).

(** ** Shared and local state *)

(** Identity of a client object returned by [create_bot()]. *)
Definition handle := nat.

(** The module-level variables shared with the reporter. *)
Record globals := mkGlobals {
  fatal_error_state : option string;
  last_fatal_error_time : option datetime;
  current_bot_instance : option handle
}.

(** The local variables of [run_discord_bot]; a module variable is
    [true] when it is bound to a module object and [false] when [None]. *)
Record locals := mkLocals {
  retry_count : nat;
  bot_module : bool;
  discord_module : bool;
  BotConfigurationError : exc_class
}.

(** Where a caught exception is logged. *)
Inductive site :=
| PreflightError      (* main.py:127 *)
| RecoveryError       (* main.py:132 *)
| ConfigurationHandler (* main.py:159 *)
| GenericHandler.     (* main.py:167 *)

Inductive event :=
| EvRecoveryAttempt                 (* main.py:90, a recovery is started *)
| EvImport (stage : import_stage)
| EvCheckToken
| EvPreflightCreate
| EvPreflightLogin
| EvCreateBot
| EvRun (h : handle) (g : globals)
| EvSleep (g : globals)
| EvUnlock (g : globals)
| EvCaught (s : site) (e : exn).

(** The supervisor's state, with the number of polls of the shutdown
    event made so far in the current iteration. *)
Record world := mkWorld {
  w_globals : globals;
  w_locals : locals;
  w_polls : nat
}.

(** The oracle answers of one loop iteration. *)
Record env := mkEnv {
  is_set : nat -> bool;            (* [shutdown_event.is_set()], by poll number *)
  now_check : datetime;            (* [datetime.now()], main.py:88 *)
  reimport : import_result;        (* main.py:96-98 *)
  check_token : outcome bool;      (* main.py:103 *)
  preflight_create : outcome unit; (* main.py:108 *)
  preflight_login : outcome unit;  (* main.py:118, login then close *)
  create_bot : outcome handle;     (* main.py:154 *)
  run : outcome unit;              (* main.py:157 *)
  now_fatal : datetime;            (* [datetime.now()], main.py:163 and 174 *)
  jitter : Q                       (* [random.uniform(0.8, 1.2)] *)
}.

(** ** A state, exception and trace monad over [world] *)

Definition M (A : Type) : Type := world -> outcome A * world * list event.

Definition ret {A} (a : A) : M A := fun w => (Returns a, w, []).

Definition bind {A B} (m : M A) (f : A -> M B) : M B :=
  fun w =>
    match m w with
    | (Returns a, w1, t1) =>
      match f a w1 with
      | (r, w2, t2) => (r, w2, (t1 ++ t2)%list)
      end
    | (Raises e, w1, t1) => (Raises e, w1, t1)
    end.

Definition raise {A} (e : exn) : M A := fun w => (Raises e, w, []).

(** [try: m except Exception as e: h e] *)
Definition try_except {A} (m : M A) (h : exn -> M A) : M A :=
  fun w =>
    match m w with
    | (Returns a, w1, t1) => (Returns a, w1, t1)
    | (Raises e, w1, t1) =>
      match h e w1 with
      | (r, w2, t2) => (r, w2, (t1 ++ t2)%list)
      end
    end.

(** [try: m finally: f], for a finaliser that does not raise *)
Definition try_finally {A} (m : M A) (f : M unit) : M A :=
  fun w =>
    match m w with
    | (r, w1, t1) =>
      match f w1 with
      | (_, w2, t2) => (r, w2, (t1 ++ t2)%list)
      end
    end.

Declare Scope py_scope.
Delimit Scope py_scope with py.
Notation "x <- m ;; k" := (bind m (fun x => k))
  (at level 61, m at next level, right associativity) : py_scope.
Notation "m ;; k" := (bind m (fun _ => k))
  (at level 61, right associativity) : py_scope.
Open Scope py_scope.

Definition get_globals : M globals := fun w => (Returns (w_globals w), w, []).
Definition get_locals : M locals := fun w => (Returns (w_locals w), w, []).

Definition put_globals (g : globals) : M unit :=
  fun w => (Returns tt, mkWorld g (w_locals w) (w_polls w), []).
Definition put_locals (l : locals) : M unit :=
  fun w => (Returns tt, mkWorld (w_globals w) l (w_polls w), []).

Definition emit (ev : event) : M unit := fun w => (Returns tt, w, [ev]).

(** Consult an oracle answer: return its value or raise its exception. *)
Definition call {A} (ev : event) (r : outcome A) : M A :=
  emit ev ;; (fun w => (r, w, [])).

(** Assignments to single variables. *)
Definition set_fatal_error_state (v : option string) : M unit :=
  g <- get_globals ;;
  put_globals (mkGlobals v (last_fatal_error_time g) (current_bot_instance g)).
Definition set_last_fatal_error_time (v : option datetime) : M unit :=
  g <- get_globals ;;
  put_globals (mkGlobals (fatal_error_state g) v (current_bot_instance g)).
Definition set_current_bot_instance (v : option handle) : M unit :=
  g <- get_globals ;;
  put_globals (mkGlobals (fatal_error_state g) (last_fatal_error_time g) v).
Definition set_retry_count (n : nat) : M unit :=
  l <- get_locals ;;
  put_locals (mkLocals n (bot_module l) (discord_module l) (BotConfigurationError l)).
Definition set_bot_module (b : bool) : M unit :=
  l <- get_locals ;;
  put_locals (mkLocals (retry_count l) b (discord_module l) (BotConfigurationError l)).
Definition set_discord_module (b : bool) : M unit :=
  l <- get_locals ;;
  put_locals (mkLocals (retry_count l) (bot_module l) b (BotConfigurationError l)).
Definition set_BotConfigurationError (c : exc_class) : M unit :=
  l <- get_locals ;;
  put_locals (mkLocals (retry_count l) (bot_module l) (discord_module l) c).

(** [with fatal_error_lock: body].  The readers take the same lock
    (main.py:474, 550), so what they can see of the body is the state at
    its release, which also happens when the body raises. *)
Definition with_fatal_error_lock {A} (body : M A) : M A :=
  try_finally body (g <- get_globals ;; emit (EvUnlock g)).

(** [shutdown_event.is_set()] *)
Definition poll (E : env) : M bool :=
  fun w => (Returns (is_set E (w_polls w)),
            mkWorld (w_globals w) (w_locals w) (S (w_polls w)), []).

(** [time.sleep(1)]: the other threads run and see the globals. *)
Definition sleep1 : M unit :=
  g <- get_globals ;; emit (EvSleep g).

(** [for _ in range(n): if shutdown_event.is_set(): break; time.sleep(1)] *)
Fixpoint sleep_loop (E : env) (n : nat) : M unit :=
  match n with
  | O => ret tt
  | S k => b <- poll E ;; if b then ret tt else sleep1 ;; sleep_loop E k
  end.

(** ** [run_discord_bot]: start-up (main.py:51-77) *)

Definition initial_world : world :=
  mkWorld (mkGlobals None None None) (mkLocals 0 false false ClsException) 0.

(** The three import statements; [rebind] tells whether the second one
    assigns the local name [BotConfigurationError] (main.py:62) or
    another name (main.py:97, [LocalBotConfigurationError]). *)
Definition import_modules (r : import_result) (rebind : bool) : M unit :=
  emit (EvImport AtBot) ;;
  match r with
  | ImportFails AtBot e => raise e
  | _ =>
    set_bot_module true ;;
    emit (EvImport AtBotConfigurationError) ;;
    match r with
    | ImportFails AtBotConfigurationError e => raise e
    | _ =>
      (if rebind then set_BotConfigurationError ClsBotConfigurationError
       else ret tt) ;;
      emit (EvImport AtDiscord) ;;
      match r with
      | ImportFails AtDiscord e => raise e
      | _ => set_discord_module true
      end
    end
  end.

(** [try: m except ImportError as e: h e] *)
Definition try_except_ImportError {A} (m : M A) (h : exn -> M A) : M A :=
  try_except m (fun e => if exn_is_ImportError e then h e else raise e).

(** main.py:51-77.  [imp] and [tok] are the answers of the imports and of
    [bot_module.check_token()], [t_import] and [t_token] the clock
    readings of main.py:68 and 76.  The result is [Raises] when an
    exception escapes, which ends the thread. *)
Definition startup (imp : import_result) (tok : outcome bool)
                   (t_import t_token : datetime) : M unit :=
  try_except_ImportError
    (import_modules imp true)
    (fun e =>
       with_fatal_error_lock
         (set_fatal_error_state (Some ("Import error: " ++ exn_str e)) ;;
          set_last_fatal_error_time (Some t_import))) ;;
  l <- get_locals ;;
  if bot_module l then
    ok <- call EvCheckToken tok ;;
    if negb ok then
      with_fatal_error_lock
        (set_fatal_error_state (Some "Token Discord manquant") ;;
         set_last_fatal_error_time (Some t_token))
    else ret tt
  else ret tt.

(** ** [run_discord_bot]: the loop (main.py:79-203) *)

Definition base_delay : nat := 2.
Definition max_delay : nat := 300.

(** [min(base_delay * (2 ** min(retry_count, 8)), max_delay)] *)
Definition backoff (retry_count : nat) : nat :=
  Nat.min (base_delay * 2 ^ Nat.min retry_count 8) max_delay.

(** [wait_time * jitter], main.py:188: the integer is converted to a
    float, exactly, and the product of the two floats is rounded. *)
Definition wait_time (retry_count : nat) (jitter : Q) : Q :=
  round_double (inject_Z (Z.of_nat (backoff retry_count)) * jitter)%Q.

(** main.py:92-133, the validated recovery. *)
Definition recovery (E : env) (current_fatal_state : string) : M unit :=
  try_except
    ((if contains "Import error" current_fatal_state
      then import_modules (reimport E) false
      else ret tt) ;;
     l <- get_locals ;;
     if bot_module l && discord_module l then
       ok <- call EvCheckToken (check_token E) ;;
       if negb ok then ret tt
       else
         try_except
           (call EvPreflightCreate (preflight_create E) ;;
            call EvPreflightLogin (preflight_login E) ;;
            set_fatal_error_state None ;;
            set_last_fatal_error_time None ;;
            set_retry_count 0)
           (fun preflight_error =>
              emit (EvCaught PreflightError preflight_error))
     else ret tt)
    (fun recovery_error => emit (EvCaught RecoveryError recovery_error)).

(** main.py:82-135; returns [current_fatal_state]. *)
Definition check_fatal (E : env) : M (option string) :=
  with_fatal_error_lock
    (g <- get_globals ;;
     let current_fatal_state := fatal_error_state g in
     let error_time := last_fatal_error_time g in
     match current_fatal_state, error_time with
     | Some s, Some t =>
       if truthy s then
         let time_since_error := total_seconds (now_check E - t)%Z in
         if exceeds time_since_error 600
         then emit EvRecoveryAttempt ;; recovery E s
         else ret tt
       else ret tt
     | _, _ => ret tt
     end ;;
     g' <- get_globals ;;
     ret (fatal_error_state g')).

(** How a block ends apart from raising. *)
Inductive flow := Fallthrough | Continue | Break.

Definition opt_truthy (s : option string) : bool :=
  match s with Some s => truthy s | None => false end.

Definition modules_unavailable : exn :=
  mkExn "Exception" "Modules bot ou discord non disponibles" false false.

(** The [try] block, main.py:80-157. *)
Definition attempt (E : env) : M flow :=
  current_fatal_state <- check_fatal E ;;
  if opt_truthy current_fatal_state then
    sleep_loop E 30 ;; ret Continue
  else
    l <- get_locals ;;
    if negb (bot_module l) || negb (discord_module l) then
      raise modules_unavailable
    else
      h <- call EvCreateBot (create_bot E) ;;
      set_current_bot_instance (Some h) ;;
      g <- get_globals ;;
      call (EvRun h g) (run E) ;;
      ret Fallthrough.

(** The two [except] clauses, main.py:159-199. *)
Definition handlers (E : env) (e : exn) : M flow :=
  l <- get_locals ;;
  if isinstance e (BotConfigurationError l) then
    emit (EvCaught ConfigurationHandler e) ;;
    with_fatal_error_lock
      (set_fatal_error_state (Some ("Configuration error: " ++ exn_str e)) ;;
       set_last_fatal_error_time (Some (now_fatal E))) ;;
    ret Fallthrough
  else
    (if (exn_name e =? "LoginFailure")%string then
       with_fatal_error_lock
         (set_fatal_error_state (Some ("Invalid token: " ++ exn_str e)) ;;
          set_last_fatal_error_time (Some (now_fatal E)))
     else set_retry_count (S (retry_count l))) ;;
    emit (EvCaught GenericHandler e) ;;
    stop <- poll E ;;
    if stop then ret Break
    else
      l' <- get_locals ;;
      sleep_loop E (Z.to_nat (py_int (wait_time (retry_count l') (jitter E)))) ;;
      ret Fallthrough.

(** One run of the loop body: [try] / [except] / [finally]. *)
Definition loop_body (E : env) : M flow :=
  try_finally
    (try_except (attempt E) (handlers E))
    (set_current_bot_instance None).

Definition reset_polls : M unit :=
  fun w => (Returns tt, mkWorld (w_globals w) (w_locals w) 0, []).

(** The loop test and one body; the answer tells whether the loop goes
    on.  Poll numbers count from the start of the iteration. *)
Definition iteration (E : env) : M bool :=
  reset_polls ;;
  stop <- poll E ;;
  if stop then ret false
  else
    f <- loop_body E ;;
    ret (match f with Break => false | _ => true end).

(** The first iterations of the loop, one per element of [Es]. *)
Fixpoint run_loop (Es : list env) : M unit :=
  match Es with
  | [] => ret tt
  | E :: Es' =>
    again <- iteration E ;;
    if again then run_loop Es' else ret tt
  end.

(** [run_discord_bot()] up to the iterations answered by [Es]. *)
Definition run_discord_bot (imp : import_result) (tok : outcome bool)
                           (t_import t_token : datetime)
                           (Es : list env) : M unit :=
  startup imp tok t_import t_token ;;
  run_loop Es.

(** ** The reporter (main.py:219-228, 467-523, 544-604) *)

Record bot_status := mkStatus {
  online : bool;
  first_online_time : option datetime;
  offline_since : option datetime;
  bot_name : string;
  servers : nat;
  last_update : option datetime;  (* the instant whose [strftime] is stored *)
  reconnect_count : nat
}.

Definition initial_bot_status : bot_status :=
  mkStatus false None None "Bot Discord" 0 None 0.

(** What the reporter reads from a client object: [is_ready()], which
    may raise, the name [str(user)] if [user] is set, and [len(guilds)]. *)
Record bot_view := mkView {
  is_ready : outcome bool;
  user : option string;
  guilds : nat
}.

Section Reporter.

Variable app_start_time : datetime.
(** The client objects as the reporter finds them. *)
Variable probe : handle -> bot_view.

(** The [except] clause of [update_bot_status], main.py:518-523. *)
Definition update_failed (now : datetime) (bs : bot_status) : bot_status :=
  mkStatus false (first_online_time bs)
           (if online bs then Some now else offline_since bs)
           (bot_name bs) (servers bs) (last_update bs) (reconnect_count bs).

(** main.py:480-486 *)
Definition fatal_branch (current_fatal_state : string) (now : datetime)
                        (bs : bot_status) : bot_status :=
  mkStatus false (first_online_time bs)
           (if online bs then Some now else offline_since bs)
           ("Bot Discord (Erreur fatale: " ++ current_fatal_state ++ ")")
           0 (Some now) (reconnect_count bs).

(** main.py:493-502 *)
Definition online_branch (v : bot_view) (now : datetime)
                         (bs : bot_status) : bot_status :=
  mkStatus true
           (if online bs then first_online_time bs
            else match first_online_time bs with
                 | Some t => Some t
                 | None => Some now
                 end)
           (if online bs then offline_since bs else None)
           (match user v with Some u => u | None => "Bot Discord" end)
           (guilds v) (Some now) (reconnect_count bs).

(** main.py:504-514 *)
Definition offline_branch (now : datetime) (bs : bot_status) : bot_status :=
  mkStatus false (first_online_time bs)
           (if online bs then Some now
            else match offline_since bs with
                 | Some t => Some t
                 | None => Some app_start_time
                 end)
           "Bot Discord" 0 (Some now)
           (if online bs then S (reconnect_count bs) else reconnect_count bs).

(** main.py:488-514 *)
Definition instance_branch (g : globals) (now : datetime)
                           (bs : bot_status) : bot_status :=
  match current_bot_instance g with
  | Some bot_instance =>
    match is_ready (probe bot_instance) with
    | Raises _ => update_failed now bs
    | Returns true => online_branch (probe bot_instance) now bs
    | Returns false => offline_branch now bs
    end
  | None => offline_branch now bs
  end.

(** [update_bot_status()], main.py:467-523.  [g] is what the reporter
    reads from the shared variables, [now] the clock. *)
Definition update_bot_status (g : globals) (now : datetime)
                             (bs : bot_status) : bot_status :=
  match fatal_error_state g with
  | Some current_fatal_state =>
    if truthy current_fatal_state
    then fatal_branch current_fatal_state now bs
    else instance_branch g now bs
  | None => instance_branch g now bs
  end.

(** JSON values of the responses. *)
Inductive json :=
| JString (s : string)
| JBool (b : bool)
| JNull
| JNumber (x : Q)
| JIsoformat (t : datetime)                  (* [t.isoformat()] *)
| JOfflineFor (offline_duration : Q) (grace_period : Z).
                                             (* the f-string of main.py:590 *)

Definition response : Type := list (string * json) * Z.

Definition grace_period : Z := 120.

(** [health_check()], main.py:544-604.  [g_upd] is what
    [update_bot_status] reads and [t_upd] its clock; [g] is what the
    handler reads at main.py:550-552 and [now] its clock.  Returns the
    response and the status record left behind. *)
Definition health_check (g_upd : globals) (t_upd : datetime)
                        (g : globals) (now : datetime)
                        (bs : bot_status) : response * bot_status :=
  let bs' := update_bot_status g_upd t_upd bs in
  let current_fatal_state := fatal_error_state g in
  let error_time := last_fatal_error_time g in
  let app_runtime := total_seconds (now - app_start_time)%Z in
  let bot_online := online bs' in
  let offline_duration :=
    match offline_since bs' with
    | Some t => total_seconds (now - t)%Z
    | None => 0%Q
    end in
  if opt_truthy current_fatal_state then
    (([ ("status", JString "unhealthy");
        ("bot_online", JBool false);
        ("timestamp", JIsoformat now);
        ("error", JString ("Fatal error: " ++
                           match current_fatal_state with
                           | Some s => s
                           | None => ""
                           end));
        ("app_runtime", JNumber app_runtime);
        ("fatal", JBool true);
        ("error_time", match error_time with
                       | Some t => JIsoformat t
                       | None => JNull
                       end) ], 503%Z), bs')
  else if negb bot_online && exceeds offline_duration grace_period then
    (([ ("status", JString "unhealthy");
        ("bot_online", JBool false);
        ("timestamp", JIsoformat now);
        ("error", JOfflineFor offline_duration grace_period);
        ("offline_duration", JNumber offline_duration);
        ("app_runtime", JNumber app_runtime) ], 503%Z), bs')
  else
    (([ ("status", JString "healthy");
        ("bot_online", JBool bot_online);
        ("timestamp", JIsoformat now);
        ("heartbeat", JBool true);
        ("offline_duration", JNumber offline_duration);
        ("app_runtime", JNumber app_runtime);
        ("service", JString "discord-bot-heartbeat") ], 200%Z), bs').

End Reporter.

(** [body[key]] *)
Fixpoint field (key : string) (body : list (string * json)) : option json :=
  match body with
  | [] => None
  | (k, v) :: rest => if (k =? key)%string then Some v else field key rest
  end.

(** ** The other routes of the reporter (main.py:451-465, 606-631) *)

(** [str(n)] of an integer. *)
Definition str_of_int (n : Z) : string := NilZero.string_of_int (Z.to_int n).

(** [int(x // d)] for a float [x] and a positive integer literal [d]:
    floor division. *)
Definition floordiv (x : Q) (d : Z) : Z := Qfloor (x / inject_Z d).

(** [x % d]: the remainder that goes with floor division. *)
Definition pymod (x : Q) (d : Z) : Q := (x - inject_Z (d * floordiv x d))%Q.

(** [calculate_uptime(start_time)], main.py:451-465, with [now] the
    clock reading of main.py:456. *)
Definition calculate_uptime (now : datetime) (start_time : option datetime)
  : option string :=
  match start_time with
  | None => None
  | Some start =>
    let uptime := total_seconds (now - start)%Z in
    let hours := floordiv uptime 3600 in
    let minutes := floordiv (pymod uptime 3600) 60 in
    if (0 <? hours)%Z
    then Some (str_of_int hours ++ "h " ++ str_of_int minutes ++ "m")
    else Some (str_of_int minutes ++ "m")
  end.

Section Routes.

Variable app_start_time : datetime.
Variable probe : handle -> bot_view.

(** [api_status()], main.py:606-611: the status record after the update,
    of which the body is the JSON copy, and the status code. *)
Definition api_status (g : globals) (now : datetime) (bs : bot_status)
  : bot_status * Z :=
  (update_bot_status app_start_time probe g now bs, 200%Z).

(** [readiness_check()], main.py:613-631.  [g] and [t_upd] are what
    [update_bot_status] reads, [now] is the clock of the response. *)
Definition readiness_check (g : globals) (t_upd now : datetime)
                           (bs : bot_status) : response * bot_status :=
  let bs' := update_bot_status app_start_time probe g t_upd bs in
  let bot_online := online bs' in
  if bot_online then
    (([ ("status", JString "ready");
        ("bot_online", JBool true);
        ("timestamp", JIsoformat now) ], 200%Z), bs')
  else
    (([ ("status", JString "not_ready");
        ("bot_online", JBool false);
        ("timestamp", JIsoformat now) ], 503%Z), bs').

(** The status record after a series of requests, each with what its
    [update_bot_status] reads: the shared variables, the client objects
    and the clock. *)
Fixpoint run_updates (reads : list (globals * (handle -> bot_view) * datetime))
                     (bs : bot_status) : bot_status :=
  match reads with
  | [] => bs
  | (g, pr, now) :: rest =>
    run_updates rest (update_bot_status app_start_time pr g now bs)
  end.

End Routes.

(** ** States the supervisor can reach, and what a reader can see *)

Definition result_of {A} (x : outcome A * world * list event) : outcome A :=
  fst (fst x).
Definition final {A} (x : outcome A * world * list event) : world :=
  snd (fst x).
Definition events {A} (x : outcome A * world * list event) : list event :=
  snd x.

(** The worlds at the loop test: after a start-up that did not end the
    thread, and after every iteration. *)
Inductive reachable : world -> Prop :=
| reach_startup imp tok t_import t_token :
    result_of (startup imp tok t_import t_token initial_world) = Returns tt ->
    reachable (final (startup imp tok t_import t_token initial_world))
| reach_iteration E w :
    reachable w ->
    reachable (final (iteration E w)).

(** The shared variables as carried by an event. *)
Definition snapshot (ev : event) : option globals :=
  match ev with
  | EvRun _ g | EvSleep g | EvUnlock g => Some g
  | _ => None
  end.

(** A reader sees the initial values, the values at a point of start-up
    or of an iteration where the supervisor holds no lock, or the values
    at a loop test. *)
Inductive visible : globals -> Prop :=
| vis_initial : visible (w_globals initial_world)
| vis_startup imp tok t_import t_token ev g :
    In ev (events (startup imp tok t_import t_token initial_world)) ->
    snapshot ev = Some g -> visible g
| vis_iteration E w ev g :
    reachable w -> In ev (events (iteration E w)) ->
    snapshot ev = Some g -> visible g
| vis_loop_test w : reachable w -> visible (w_globals w).

(** * Vocabulary of the statements, and concrete inputs *)

(** Number of [time.sleep(1)] calls of a sleep loop of [n] rounds whose
    first poll has number [p]. *)
Fixpoint slept (E : env) (n p : nat) : nat :=
  match n with
  | O => O
  | S k => if is_set E p then O else S (slept E k (S p))
  end.

(** Poll number after that loop. *)
Fixpoint polled (E : env) (n p : nat) : nat :=
  match n with
  | O => p
  | S k => if is_set E p then S p else polled E k (S p)
  end.

(** An event that shows nothing of the shared variables. *)
Definition silent (ev : event) : Prop := snapshot ev = None.

Definition caught (ev : event) : Prop :=
  match ev with EvCaught _ _ => True | _ => False end.

(** The descriptor and its time are set and cleared together, and a
    descriptor that is set is a non-empty string. *)
Definition consistent (g : globals) : Prop :=
  match fatal_error_state g, last_fatal_error_time g with
  | Some s, Some _ => truthy s = true
  | None, None => True
  | _, _ => False
  end.

Definition ok_event (ev : event) : Prop :=
  match snapshot ev with
  | Some g => consistent g
  | None => True
  end.

(** The events of a connection attempt: constructing a client, logging
    in, running. *)
Definition connection_event (ev : event) : Prop :=
  match ev with
  | EvPreflightCreate | EvPreflightLogin | EvCreateBot | EvRun _ _ => True
  | _ => False
  end.

(** The events of the preflight validation. *)
Definition preflight_event (ev : event) : Prop :=
  match ev with
  | EvRecoveryAttempt | EvImport _ | EvCheckToken
  | EvPreflightCreate | EvPreflightLogin => True
  | _ => False
  end.

Definition waiting_event (ev : event) : Prop :=
  match ev with
  | EvSleep _ | EvUnlock _ => True
  | _ => False
  end.

(** A start-up with the modules in place and no token: the descriptor
    is set at time 0. *)
Definition missing_token_world : world :=
  final (startup ImportOk (Returns false) 0%Z 0%Z initial_world).

(** Oracle answers of an iteration that reads the clock at [t] while no
    shutdown is requested. *)
Definition env_at (t : datetime) : env :=
  mkEnv (fun _ => false) t ImportOk (Returns true) (Returns tt) (Returns tt)
        (Returns 1) (Returns tt) t (1 # 1)%Q.

(** Number of [time.sleep(1)] calls in a trace. *)
Fixpoint count_sleeps (evs : list event) : nat :=
  match evs with
  | [] => 0
  | EvSleep _ :: rest => S (count_sleeps rest)
  | _ :: rest => count_sleeps rest
  end.

(** The [try] block raises [e]: from [create_bot()] or from [run]. *)
Definition attempt_raises (E : env) (e : exn) : Prop :=
  create_bot E = Raises e \/
  exists h, create_bot E = Returns h /\ run E = Raises e.

(** A world in which the client can be started: no fatal error, both
    modules imported, [retry_count] failures so far. *)
Definition running_world (retry_count : nat) : world :=
  mkWorld (mkGlobals None None None)
          (mkLocals retry_count true true ClsBotConfigurationError) 0.

Definition connection_reset : exn :=
  mkExn "ConnectionResetError" "Connection reset by peer" false false.

(** [run] raises a connection error; the jitter drawn is [j]. *)
Definition env_transient (j : Q) : env :=
  mkEnv (fun _ => false) 0%Z ImportOk (Returns true) (Returns tt) (Returns tt)
        (Returns 1) (Raises connection_reset) 0%Z j.

Definition no_module_named_bot : exn :=
  mkExn "ModuleNotFoundError" "No module named 'bot'" false true.

Definition login_failure : exn :=
  mkExn "LoginFailure" "Improper token has been passed." false false.

(** The [bot] module cannot be imported at start-up (time 0). *)
Definition import_failed_world : world :=
  final (startup (ImportFails AtBot no_module_named_bot) (Returns true)
                 0%Z 0%Z initial_world).

(** 601 seconds later the module is there and the preflight passes; the
    [run] that follows raises [LoginFailure] at 700 seconds. *)
Definition env_recovered_then_login_failure : env :=
  mkEnv (fun _ => false) 601000000%Z ImportOk (Returns true)
        (Returns tt) (Returns tt) (Returns 1) (Raises login_failure)
        700000000%Z (1 # 1)%Q.

Definition cannot_import_name : exn :=
  mkExn "ImportError" "cannot import name 'BotConfigurationError' from 'bot'"
        false true.

(** A status record that still says the bot is online. *)
Definition stale_online_status : bot_status :=
  mkStatus true (Some 1000000%Z) None "Bot#0001" 3 (Some 1000000%Z) 0.

Definition ready_view : bot_view := mkView (Returns true) (Some "Bot#0001") 3.

(** The invariant of the status record: a bot marked online has a first
    online time and no offline time. *)
Definition status_ok (bs : bot_status) : Prop :=
  online bs = true ->
  first_online_time bs <> None /\ offline_since bs = None.

(** The status record with another [last_update]. *)
Definition with_last_update (u : option datetime) (bs : bot_status)
  : bot_status :=
  mkStatus (online bs) (first_online_time bs) (offline_since bs)
           (bot_name bs) (servers bs) u (reconnect_count bs).

(** What an [EvRun] event shows: no fatal error, and the client that
    runs as the published instance. *)
Definition run_ok (ev : event) : Prop :=
  match ev with
  | EvRun h g =>
    fatal_error_state g = None /\ last_fatal_error_time g = None /\
    current_bot_instance g = Some h
  | _ => True
  end.

(** Events that a loop stuck in the fatal state emits. *)
Definition stuck_event (ev : event) : Prop :=
  match ev with
  | EvRecoveryAttempt | EvSleep _ | EvUnlock _ => True
  | _ => False
  end.

Definition no_module_named_discord : exn :=
  mkExn "ModuleNotFoundError" "No module named 'discord'" false true.

(** [import discord] fails at start-up and the token is missing. *)
Definition discord_missing_world : world :=
  final (startup (ImportFails AtDiscord no_module_named_discord)
                 (Returns false) 0%Z 1%Z initial_world).

(** [run] raises a connection error and the shutdown event is found set
    from poll number [k] on. *)
Definition env_shutdown_from (k : nat) : env :=
  mkEnv (fun p => (k <=? p)%nat) 0%Z ImportOk (Returns true) (Returns tt)
        (Returns tt) (Returns 1) (Raises connection_reset) 0%Z (1 # 1)%Q.

(** A client whose [is_ready()] raises. *)
Definition broken_view : bot_view :=
  mkView (Raises connection_reset) None 0.

(** 601 seconds after start-up the [bot] module still cannot be
    imported. *)
Definition env_bot_still_missing : env :=
  mkEnv (fun _ => false) 601000000%Z (ImportFails AtBot no_module_named_bot)
        (Returns true) (Returns tt) (Returns tt) (Returns 1) (Returns tt)
        0%Z (1 # 1)%Q.


(** An exception of an import that is not an [ImportError]. *)
Definition syntax_error : exn :=
  mkExn "SyntaxError" "invalid syntax (bot.py, line 1)" false false.

(** * Properties *)

(** ** The sleep loop *)

Lemma sleep_loop_eq E n w :
  sleep_loop E n w =
  (Returns tt,
   mkWorld (w_globals w) (w_locals w) (polled E n (w_polls w)),
   repeat (EvSleep (w_globals w)) (slept E n (w_polls w))).
Proof.
  revert w; induction n as [|n IH]; intros [g l p]; cbn.
  - reflexivity.
  - unfold bind, poll; cbn. destruct (is_set E p); cbn.
    + reflexivity.
    + rewrite IH; cbn. reflexivity.
Qed.

Lemma slept_le E n p : slept E n p <= n.
Proof.
  revert p; induction n as [|n IH]; intros p; cbn; [lia|].
  destruct (is_set E p); [lia|]. specialize (IH (S p)); lia.
Qed.

Lemma slept_all E n p :
  (forall k, is_set E k = false) -> slept E n p = n.
Proof.
  intros H; revert p; induction n as [|n IH]; intros p; cbn; [easy|].
  now rewrite H, IH.
Qed.

(** ** Symbolic execution of the monadic code *)

Declare Reduction py :=
  cbv beta iota zeta delta
    [try_finally try_except try_except_ImportError call sleep1 reset_polls
     poll with_fatal_error_lock
     set_fatal_error_state set_last_fatal_error_time
     set_current_bot_instance set_retry_count set_bot_module
     set_discord_module set_BotConfigurationError
     put_globals put_locals get_globals get_locals emit raise bind ret
     w_globals w_locals w_polls
     fatal_error_state last_fatal_error_time current_bot_instance
     retry_count bot_module discord_module BotConfigurationError
     opt_truthy isinstance initial_world modules_unavailable
     result_of final events fst snd andb orb negb].

Ltac py_eval_in H :=
  let T := type of H in let T' := eval py in T in change T' in H;
  cbn [app] in H.

Ltac py_eval :=
  lazymatch goal with |- ?T => let T' := eval py in T in change T' end;
  cbn [app].

(** The term on which the evaluation of [t] is stuck. *)
Ltac head_scrut t :=
  lazymatch t with
  | match ?x with _ => _ end => head_scrut x
  | (match ?x with _ => _ end) _ => head_scrut x
  | _ => t
  end.

(** One step of the run recorded in [H : m w = x]: evaluate, then use a
    known equation for the stuck term or split on it. *)
Ltac exec_step H :=
  py_eval_in H;
  lazymatch type of H with
  | ?lhs = _ =>
    lazymatch lhs with
    | context [sleep_loop ?E ?n ?w] => rewrite (sleep_loop_eq E n w) in H
    | _ =>
      let x := head_scrut lhs in
      lazymatch x with
      | lhs => fail
      | _ =>
        first
          [ match goal with Hx : x = _ |- _ => rewrite Hx in H end
          | destruct x eqn:? ]
      end
    end
  end.

Ltac exec H := repeat exec_step H; py_eval_in H.

(** Name the run [m w] of the goal, execute it, and substitute. *)
Ltac run_of m :=
  let x := fresh "x" in
  let H := fresh "Hrun" in
  remember m as x eqn:H; symmetry in H; exec H; subst x; py_eval;
  rewrite ?app_nil_r.

Ltac run_goal :=
  match goal with
  | |- context [@final _ ?m] => run_of m
  | |- context [@events _ ?m] => run_of m
  | |- context [@result_of _ ?m] => run_of m
  end.

(** ** What the recovery does (main.py:92-133) *)

(** Either the recovery clears the fatal error and resets the count, or
    it leaves all three as they are; it never rebinds
    [BotConfigurationError], polls or touches the instance. *)
Lemma recovery_summary E s w :
  let x := recovery E s w in
  result_of x = Returns tt /\
  w_polls (final x) = w_polls w /\
  BotConfigurationError (w_locals (final x)) = BotConfigurationError (w_locals w) /\
  current_bot_instance (w_globals (final x)) = current_bot_instance (w_globals w) /\
  Forall silent (events x) /\
  ((fatal_error_state (w_globals (final x)) = fatal_error_state (w_globals w) /\
    last_fatal_error_time (w_globals (final x)) = last_fatal_error_time (w_globals w) /\
    retry_count (w_locals (final x)) = retry_count (w_locals w))
   \/
   (fatal_error_state (w_globals (final x)) = None /\
    last_fatal_error_time (w_globals (final x)) = None /\
    retry_count (w_locals (final x)) = 0 /\
    bot_module (w_locals (final x)) = true /\
    discord_module (w_locals (final x)) = true /\
    Forall (fun ev => ~ caught ev) (events x))).
Proof.
  destruct w as [[f t c] [rc bm dm cls] p]. intros x; subst x.
  unfold recovery, import_modules.
  run_goal.
  all: repeat split; try reflexivity;
    try (repeat constructor; fail);
    try (left; repeat split; reflexivity);
    try (right; repeat split; try reflexivity; repeat constructor; cbn; tauto).
Qed.

(** ** The invariant of the shared variables *)

Lemma silent_ok evs : Forall silent evs -> Forall ok_event evs.
Proof.
  apply Forall_impl. intros ev H. unfold ok_event, silent in *. now rewrite H.
Qed.

Lemma repeat_ok ev n : ok_event ev -> Forall ok_event (repeat ev n).
Proof.
  intros H. apply Forall_forall. intros x Hx.
  now rewrite (repeat_spec _ _ _ Hx).
Qed.

(** The locked section at the head of the loop body: its events are
    silent but for the release of the lock, which shows the final state;
    the fatal error is left alone or cleared together with the count. *)
Lemma check_fatal_summary E w :
  let x := check_fatal E w in
  exists evs,
    events x = (evs ++ [EvUnlock (w_globals (final x))])%list /\
    Forall silent evs /\
    result_of x = Returns (fatal_error_state (w_globals (final x))) /\
    w_polls (final x) = w_polls w /\
    BotConfigurationError (w_locals (final x)) = BotConfigurationError (w_locals w) /\
    current_bot_instance (w_globals (final x)) = current_bot_instance (w_globals w) /\
    ((fatal_error_state (w_globals (final x)) = fatal_error_state (w_globals w) /\
      last_fatal_error_time (w_globals (final x)) = last_fatal_error_time (w_globals w) /\
      retry_count (w_locals (final x)) = retry_count (w_locals w))
     \/
     (fatal_error_state (w_globals (final x)) = None /\
      last_fatal_error_time (w_globals (final x)) = None /\
      retry_count (w_locals (final x)) = 0 /\
      bot_module (w_locals (final x)) = true /\
      discord_module (w_locals (final x)) = true /\
      fatal_error_state (w_globals w) <> None)).
Proof.
  destruct w as [[f t c] [rc bm dm cls] p]. intros x; subst x.
  unfold check_fatal.
  assert (Hsame :
    forall r : outcome (option string) * world * list event,
      r = (Returns f, mkWorld (mkGlobals f t c) (mkLocals rc bm dm cls) p,
           [EvUnlock (mkGlobals f t c)]) ->
      exists evs,
        events r = (evs ++ [EvUnlock (w_globals (final r))])%list /\
        Forall silent evs /\
        result_of r = Returns (fatal_error_state (w_globals (final r))) /\
        w_polls (final r) = p /\
        BotConfigurationError (w_locals (final r)) = cls /\
        current_bot_instance (w_globals (final r)) = c /\
        ((fatal_error_state (w_globals (final r)) = f /\
          last_fatal_error_time (w_globals (final r)) = t /\
          retry_count (w_locals (final r)) = rc)
         \/
         (fatal_error_state (w_globals (final r)) = None /\
          last_fatal_error_time (w_globals (final r)) = None /\
          retry_count (w_locals (final r)) = 0 /\
          bot_module (w_locals (final r)) = true /\
          discord_module (w_locals (final r)) = true /\
          f <> None))).
  { intros r ->. exists [].
    repeat split; first [ apply Forall_nil | left; repeat split; reflexivity ]. }
  destruct f as [s|]; [| apply Hsame; reflexivity ].
  destruct t as [t|]; [| apply Hsame; reflexivity ].
  destruct (truthy s) eqn:Ht;
    [| apply Hsame; py_eval; rewrite Ht; reflexivity ].
  destruct (exceeds (total_seconds (now_check E - t)%Z) 600) eqn:Hx;
    [| apply Hsame; py_eval; rewrite Ht, Hx; reflexivity ].
  clear Hsame.
  pose proof (recovery_summary E s
                (mkWorld (mkGlobals (Some s) (Some t) c) (mkLocals rc bm dm cls) p))
    as R.
  cbv zeta in R. py_eval. rewrite Ht, Hx. py_eval.
  destruct (recovery E s _) as [[r w1] evs1].
  py_eval_in R. destruct R as (-> & Hp & Hc & Hi & Hs & Hcase).
  destruct w1 as [[f1 t1 c1] [rc1 bm1 dm1 cls1] p1].
  py_eval. py_eval_in Hp. py_eval_in Hc. py_eval_in Hi. py_eval_in Hcase.
  subst. exists (EvRecoveryAttempt :: evs1). rewrite app_nil_r.
  repeat split; try reflexivity.
  - constructor; [reflexivity | assumption].
  - destruct Hcase as [(-> & -> & ->) | (-> & -> & -> & -> & -> & _)].
    + left; repeat split.
    + right; repeat split; discriminate.
Qed.

Lemma handlers_inv E e w :
  consistent (w_globals w) ->
  let x := handlers E e w in
  consistent (w_globals (final x)) /\
  Forall ok_event (events x) /\
  exists f, result_of x = Returns f.
Proof.
  destruct w as [[f t c] [rc bm dm cls] p]. intros Hc x; subst x.
  unfold handlers. run_goal.
  all: repeat split; try (eexists; reflexivity); try exact Hc;
    repeat (apply Forall_cons; [ first [ exact I | exact Hc | reflexivity ] |]);
    try apply Forall_nil;
    try (apply repeat_ok; first [ exact Hc | reflexivity ]).
Qed.

Lemma attempt_inv E w :
  consistent (w_globals w) ->
  let x := attempt E w in
  consistent (w_globals (final x)) /\ Forall ok_event (events x).
Proof.
  destruct w as [[f t c] [rc bm dm cls] p]. intros Hc x; subst x.
  pose proof (check_fatal_summary E
                (mkWorld (mkGlobals f t c) (mkLocals rc bm dm cls) p)) as R.
  cbv zeta in R.
  destruct (check_fatal E _)
    as [[r [[f1 t1 c1] [rc1 bm1 dm1 cls1] p1]] evs1] eqn:Hcf.
  py_eval_in R. destruct R as (evs & -> & Hs & -> & _ & _ & _ & Hcase).
  assert (Hc' : consistent (mkGlobals f1 t1 c1))
    by (destruct Hcase as [(-> & -> & _) | (-> & -> & _)];
        [ exact Hc | exact I ]).
  clear Hcase Hc.
  unfold attempt. run_goal.
  all: split;
    [ exact Hc'
    | rewrite <- ?app_assoc; apply Forall_app; split;
      [ apply silent_ok, Hs |];
      cbn [app];
      repeat (apply Forall_cons; [ first [ exact I | exact Hc' ] |]);
      try apply Forall_nil; try (apply repeat_ok; exact Hc') ].
Qed.

Lemma loop_body_inv E w :
  consistent (w_globals w) ->
  let x := loop_body E w in
  consistent (w_globals (final x)) /\
  Forall ok_event (events x) /\
  current_bot_instance (w_globals (final x)) = None /\
  exists f, result_of x = Returns f.
Proof.
  intros Hc x; subst x.
  pose proof (attempt_inv E w Hc) as A. cbv zeta in A.
  unfold loop_body, try_finally, try_except.
  destruct (attempt E w) as [[[fl|e] w1] t1]; py_eval_in A;
    destruct A as (Hc1 & Ht1).
  - py_eval. rewrite app_nil_r. repeat split; try assumption. now exists fl.
  - pose proof (handlers_inv E e w1 Hc1) as B. cbv zeta in B.
    destruct (handlers E e w1) as [[r2 w2] t2]. py_eval_in B.
    destruct B as (Hc2 & Ht2 & fl & ->).
    py_eval. rewrite app_nil_r. repeat split; try assumption.
    + apply Forall_app; now split.
    + now exists fl.
Qed.

Lemma iteration_inv E w :
  consistent (w_globals w) ->
  current_bot_instance (w_globals w) = None ->
  let x := iteration E w in
  consistent (w_globals (final x)) /\
  Forall ok_event (events x) /\
  current_bot_instance (w_globals (final x)) = None /\
  exists again, result_of x = Returns again.
Proof.
  destruct w as [g l p]. cbn [w_globals]. intros Hc Hn.
  pose proof (loop_body_inv E (mkWorld g l 1) Hc) as L. cbv zeta in L.
  unfold iteration. py_eval.
  destruct (is_set E 0).
  - py_eval. repeat split; try assumption; [constructor | now exists false].
  - py_eval.
    destruct (loop_body E _) as [[r w1] t1]. py_eval_in L.
    destruct L as (Hc1 & Ht1 & Hn1 & fl & ->).
    py_eval. rewrite app_nil_r. repeat split; try assumption.
    eexists; reflexivity.
Qed.

Lemma startup_inv imp tok t_import t_token :
  let x := startup imp tok t_import t_token initial_world in
  consistent (w_globals (final x)) /\
  Forall ok_event (events x) /\
  current_bot_instance (w_globals (final x)) = None.
Proof.
  intros x; subst x. unfold startup, import_modules. run_goal.
  all: repeat split;
    repeat (apply Forall_cons; [ first [ exact I | reflexivity ] |]);
    try apply Forall_nil.
Qed.

Lemma reachable_inv w :
  reachable w ->
  consistent (w_globals w) /\ current_bot_instance (w_globals w) = None.
Proof.
  induction 1 as [imp tok t1 t2 _ | E w _ [Hc Hn]].
  - pose proof (startup_inv imp tok t1 t2) as S. cbv zeta in S. tauto.
  - pose proof (iteration_inv E w Hc Hn) as S. cbv zeta in S. tauto.
Qed.

(** What a reader sees is never half written. *)
Lemma visible_consistent g : visible g -> consistent g.
Proof.
  intros [ | imp tok t1 t2 ev g' Hin Hs | E w ev g' Hw Hin Hs | w Hw ].
  - exact I.
  - pose proof (startup_inv imp tok t1 t2) as S. cbv zeta in S.
    destruct S as (_ & S & _). rewrite Forall_forall in S.
    specialize (S ev Hin). unfold ok_event in S. now rewrite Hs in S.
  - destruct (reachable_inv w Hw) as [Hc Hn].
    pose proof (iteration_inv E w Hc Hn) as S. cbv zeta in S.
    destruct S as (_ & S & _). rewrite Forall_forall in S.
    specialize (S ev Hin). unfold ok_event in S. now rewrite Hs in S.
  - now apply reachable_inv.
Qed.

(** ** Events of composed runs *)

Lemma bind_events_prefix {A B} (m : M A) (f : A -> M B) w :
  exists rest, events (bind m f w) = (events (m w) ++ rest)%list.
Proof.
  unfold bind, events. destruct (m w) as [[[a|e] w1] t1]; cbn.
  - destruct (f a w1) as [[r w2] t2]; cbn. now exists t2.
  - exists []. now rewrite app_nil_r.
Qed.

Lemma try_except_events_prefix {A} (m : M A) (h : exn -> M A) w :
  exists rest, events (try_except m h w) = (events (m w) ++ rest)%list.
Proof.
  unfold try_except, events. destruct (m w) as [[[a|e] w1] t1]; cbn.
  - exists []. now rewrite app_nil_r.
  - destruct (h e w1) as [[r w2] t2]; cbn. now exists t2.
Qed.

Lemma try_finally_events_prefix {A} (m : M A) (f : M unit) w :
  exists rest, events (try_finally m f w) = (events (m w) ++ rest)%list.
Proof.
  unfold try_finally, events. destruct (m w) as [[r w1] t1]; cbn.
  destruct (f w1) as [[r2 w2] t2]; cbn. now exists t2.
Qed.

(** An iteration whose loop test passes starts with the locked section. *)
Lemma iteration_events_prefix E w :
  is_set E 0 = false ->
  exists rest,
    events (iteration E w) =
    (events (check_fatal E (mkWorld (w_globals w) (w_locals w) 1)) ++ rest)%list.
Proof.
  intros H0. destruct w as [g l p]. cbn [w_globals w_locals].
  set (w1 := mkWorld g l 1).
  assert (HL : exists rest,
             events (loop_body E w1) = (events (check_fatal E w1) ++ rest)%list).
  {   unfold loop_body.
      destruct (try_finally_events_prefix
                  (try_except (attempt E) (handlers E))
                  (set_current_bot_instance None) w1) as [r2 ->].
      destruct (try_except_events_prefix (attempt E) (handlers E) w1) as [r3 ->].
      unfold attempt.
      destruct (bind_events_prefix (check_fatal E)
        (fun current_fatal_state =>
           if opt_truthy current_fatal_state
           then sleep_loop E 30;; ret Continue
           else
             l0 <- get_locals;;
             (if negb (bot_module l0) || negb (discord_module l0)
              then raise modules_unavailable
              else
                h <- call EvCreateBot (create_bot E);;
                set_current_bot_instance (Some h);;
                g0 <- get_globals;; call (EvRun h g0) (run E);; ret Fallthrough))
        w1) as [r4 ->].
    rewrite <- !app_assoc. eexists; reflexivity. }
  destruct HL as [rest HL].
  unfold iteration. py_eval. rewrite H0. py_eval. fold w1.
  destruct (loop_body E w1) as [[[fl|e] wf] t1]; py_eval_in HL; py_eval;
    rewrite ?app_nil_r; subst t1; eexists; reflexivity.
Qed.

(** ** Comparisons *)

Lemma exceeds_false x n : exceeds x n = false <-> (x <= inject_Z n)%Q.
Proof.
  unfold exceeds. rewrite negb_false_iff. apply Qle_bool_iff.
Qed.

Lemma exceeds_true x n : exceeds x n = true <-> (inject_Z n < x)%Q.
Proof.
  unfold exceeds. rewrite negb_true_iff. split; intros H.
  - apply Qnot_le_lt. intros Hle. apply Qle_bool_iff in Hle. congruence.
  - destruct (Qle_bool x (inject_Z n)) eqn:Hb; [| reflexivity ].
    apply Qle_bool_iff in Hb. exfalso. now apply (Qlt_not_le _ _ H).
Qed.

(** ** The fatal state below the recovery threshold *)

Lemma waiting_iteration E w s t :
  fatal_error_state (w_globals w) = Some s ->
  last_fatal_error_time (w_globals w) = Some t ->
  truthy s = true ->
  exceeds (total_seconds (now_check E - t)%Z) 600 = false ->
  let x := iteration E w in
  fatal_error_state (w_globals (final x)) = Some s /\
  last_fatal_error_time (w_globals (final x)) = Some t /\
  w_locals (final x) = w_locals w /\
  Forall waiting_event (events x).
Proof.
  destruct w as [[f t0 c] [rc bm dm cls] p]. cbn [w_globals w_locals
    fatal_error_state last_fatal_error_time].
  intros -> -> Ht Hx.
  unfold iteration, loop_body, attempt, check_fatal. run_goal.
  - repeat split. constructor.
  - repeat split. constructor; [exact I|].
    apply Forall_forall. intros ev Hin. now rewrite (repeat_spec _ _ _ Hin).
Qed.

Lemma waiting_loop Es :
  forall w s t,
    fatal_error_state (w_globals w) = Some s ->
    last_fatal_error_time (w_globals w) = Some t ->
    truthy s = true ->
    (forall E, In E Es ->
               exceeds (total_seconds (now_check E - t)%Z) 600 = false) ->
    let x := run_loop Es w in
    fatal_error_state (w_globals (final x)) = Some s /\
    last_fatal_error_time (w_globals (final x)) = Some t /\
    w_locals (final x) = w_locals w /\
    Forall waiting_event (events x).
Proof.
  induction Es as [|E Es IH]; intros w s t Hf Ht Hs Hall; cbn zeta.
  - cbn. repeat split; try assumption. constructor.
  - pose proof (waiting_iteration E w s t Hf Ht Hs (Hall E (or_introl eq_refl)))
      as W. cbv zeta in W.
    cbn [run_loop]. unfold bind.
    destruct (iteration E w) as [[[again|e] w1] t1]; py_eval_in W;
      destruct W as (Hf1 & Ht1 & Hl1 & Hev1); [| py_eval; now repeat split ].
    destruct again.
    + specialize (IH w1 s t Hf1 Ht1 Hs (fun E' H => Hall E' (or_intror H))).
      cbv zeta in IH.
      destruct (run_loop Es w1) as [[r w2] t2]. py_eval_in IH. py_eval.
      destruct IH as (Hf2 & Ht2 & Hl2 & Hev2).
      repeat split; try assumption; [congruence | now apply Forall_app].
    + py_eval. rewrite app_nil_r. now repeat split.
Qed.

(** C1.  Once the fatal-error descriptor is set, and for as long as the
    clock read at main.py:88 is at most 600 seconds past
    [last_fatal_error_time], the loop makes no connection attempt (no
    [create_bot], no login, no [run]) and runs no step of the preflight
    validation: it only releases its lock and sleeps, and the descriptor
    and its time stay as they are.  An iteration run in the fatal state
    starts the recovery exactly when the elapsed time exceeds 600
    seconds. *)
Theorem fatal_state_waits_until_threshold w s t :
  reachable w ->
  fatal_error_state (w_globals w) = Some s ->
  last_fatal_error_time (w_globals w) = Some t ->
  (forall Es,
      (forall E, In E Es -> (total_seconds (now_check E - t)%Z <= 600)%Q) ->
      let x := run_loop Es w in
      fatal_error_state (w_globals (final x)) = Some s /\
      last_fatal_error_time (w_globals (final x)) = Some t /\
      forall ev, In ev (events x) ->
                 ~ connection_event ev /\ ~ preflight_event ev) /\
  (forall E,
      is_set E 0 = false ->
      (In EvRecoveryAttempt (events (iteration E w)) <->
       (600 < total_seconds (now_check E - t)%Z)%Q)).
Proof.
  intros Hw Hf Ht.
  assert (Hs : truthy s = true).
  { destruct (reachable_inv w Hw) as [Hc _]. unfold consistent in Hc.
    now rewrite Hf, Ht in Hc. }
  split.
  - intros Es Hall.
    assert (Hall' : forall E, In E Es ->
               exceeds (total_seconds (now_check E - t)%Z) 600 = false)
      by (intros E HE; apply exceeds_false, (Hall E HE)).
    pose proof (waiting_loop Es w s t Hf Ht Hs Hall') as W. cbv zeta in W.
    cbv zeta. destruct W as (Hf' & Ht' & _ & Hev).
    repeat split; try assumption;
      rewrite Forall_forall in Hev; specialize (Hev ev H);
      now destruct ev.
  - intros E H0. split.
    + intros Hin.
      destruct (exceeds (total_seconds (now_check E - t)%Z) 600) eqn:Hx;
        [ now apply exceeds_true in Hx |].
      pose proof (waiting_iteration E w s t Hf Ht Hs Hx) as W. cbv zeta in W.
      destruct W as (_ & _ & _ & Hev). rewrite Forall_forall in Hev.
      destruct (Hev _ Hin).
    + intros Hlt. apply (exceeds_true _ 600) in Hlt.
      destruct (iteration_events_prefix E w H0) as [rest ->].
      apply in_or_app; left.
      destruct w as [[f t0 c] [rc bm dm cls] p].
      cbn [w_globals w_locals fatal_error_state last_fatal_error_time] in *.
      subst f t0. unfold check_fatal. py_eval. rewrite Hs, Hlt. py_eval.
      destruct (recovery E s _) as [[[u|e] w1] t1]; py_eval; now left.
Qed.

Lemma fatal_state_waits_until_threshold_witness :
  let x := run_loop [env_at 30000000%Z; env_at 600000000%Z]
                    missing_token_world in
  fatal_error_state (w_globals (final x)) = Some "Token Discord manquant" /\
  last_fatal_error_time (w_globals (final x)) = Some 0%Z /\
  forall ev, In ev (events x) -> ~ connection_event ev /\ ~ preflight_event ev.
Proof.
  refine (proj1 (fatal_state_waits_until_threshold
                   missing_token_world "Token Discord manquant" 0%Z
                   _ eq_refl eq_refl) _ _).
  - unfold missing_token_world. apply reach_startup. reflexivity.
  - intros E [<- | [<- | []]]; cbn; unfold Qle; cbn; lia.
Defined.

(** ** Back-off (main.py:185-199) *)

Lemma backoff_formula n :
  backoff n = Nat.min (2 * 2 ^ Nat.min n 8) 300.
Proof. reflexivity. Qed.

Lemma backoff_le_max n : backoff n <= 300.
Proof. unfold backoff, max_delay. apply Nat.le_min_r. Qed.

Lemma backoff_monotone n m : n <= m -> backoff n <= backoff m.
Proof.
  intros H. unfold backoff.
  apply Nat.min_le_compat_r, Nat.mul_le_mono_l, Nat.pow_le_mono_r; [lia|].
  now apply Nat.min_le_compat_r.
Qed.

Lemma rne_le q K : (q <= inject_Z K)%Q -> (rne q <= K)%Z.
Proof.
  intros H. unfold rne.
  assert (Hf : (Qfloor q <= K)%Z).
  { rewrite <- (Qfloor_Z K). now apply Qfloor_resp_le. }
  destruct (Z.eq_dec (Qfloor q) K) as [E|E].
  - assert (Hq : (q - inject_Z (Qfloor q) <= 0)%Q).
    { rewrite E. unfold Qminus. rewrite <- (Qplus_opp_r (inject_Z K)).
      apply Qplus_le_compat; [ exact H | apply Qle_refl ]. }
    assert (Hlt : (q - inject_Z (Qfloor q) < 1 # 2)%Q).
    { eapply Qle_lt_trans; [ exact Hq | reflexivity ]. }
    rewrite (proj1 (Qlt_alt _ _) Hlt). lia.
  - destruct (Qcompare _ _); try destruct (Z.even _); lia.
Qed.

Lemma rne_ge q K : (inject_Z K <= q)%Q -> (K <= rne q)%Z.
Proof.
  intros H. unfold rne.
  assert (Hf : (K <= Qfloor q)%Z).
  { rewrite <- (Qfloor_Z K). now apply Qfloor_resp_le. }
  destruct (Qcompare _ _); try destruct (Z.even _); lia.
Qed.

Lemma ilog2_small x : (Qfloor x < 2 ^ 53)%Z -> (ilog2 x <= 52)%Z.
Proof.
  intros H. unfold ilog2. destruct (Qle_bool 1 x) eqn:Hb.
  - apply Qle_bool_iff in Hb.
    assert (H1 : (1 <= Qfloor x)%Z).
    { rewrite <- (Qfloor_Z 1). now apply Qfloor_resp_le. }
    assert (Z.log2 (Qfloor x) < 53)%Z by (apply Z.log2_lt_pow2; lia). lia.
  - pose proof (Z.log2_up_nonneg (Qceiling (/ x))). lia.
Qed.

(** Rounding does not cross an integer below 2^53: integers of that size
    are floats. *)
Lemma round_positive_le x k :
  (x <= inject_Z k)%Q -> (k < 2 ^ 53)%Z -> (round_positive x <= inject_Z k)%Q.
Proof.
  intros Hx Hk. unfold round_positive.
  assert (Hfl : (Qfloor x < 2 ^ 53)%Z).
  { assert (Qfloor x <= k)%Z
      by (rewrite <- (Qfloor_Z k); now apply Qfloor_resp_le). lia. }
  pose proof (ilog2_small x Hfl) as He.
  set (s := (52 - ilog2 x)%Z) in *.
  assert (Hs : (0 <= s)%Z) by (unfold s; lia).
  rewrite (proj2 (Z.leb_le 0 s) Hs).
  assert (Hp : (0 < 2 ^ s)%Z) by (apply Z.pow_pos_nonneg; lia).
  assert (Hr : (rne (x * inject_Z (2 ^ s)) <= k * 2 ^ s)%Z).
  { apply rne_le. rewrite inject_Z_mult.
    apply Qmult_le_compat_r; [ exact Hx |].
    unfold Qle; cbn. lia. }
  unfold Qle. cbn [Qnum Qden inject_Z]. rewrite Z2Pos.id by exact Hp. lia.
Qed.

Lemma round_positive_ge x k :
  (inject_Z k <= x)%Q -> (Qfloor x < 2 ^ 53)%Z ->
  (inject_Z k <= round_positive x)%Q.
Proof.
  intros Hx Hfl. unfold round_positive.
  pose proof (ilog2_small x Hfl) as He.
  set (s := (52 - ilog2 x)%Z) in *.
  assert (Hs : (0 <= s)%Z) by (unfold s; lia).
  rewrite (proj2 (Z.leb_le 0 s) Hs).
  assert (Hp : (0 < 2 ^ s)%Z) by (apply Z.pow_pos_nonneg; lia).
  assert (Hr : (k * 2 ^ s <= rne (x * inject_Z (2 ^ s)))%Z).
  { apply rne_ge. rewrite inject_Z_mult.
    apply Qmult_le_compat_r; [ exact Hx |].
    unfold Qle; cbn. lia. }
  unfold Qle. cbn [Qnum Qden inject_Z]. rewrite Z2Pos.id by exact Hp. lia.
Qed.

(** The exact product of main.py:188 for a jitter of at least 0.8. *)
Lemma product_positive n j :
  (8 # 10 <= j)%Q -> (0 < inject_Z (Z.of_nat (backoff n)) * j)%Q.
Proof.
  intros Hj.
  assert (Hb : 2 <= backoff n).
  { unfold backoff, base_delay, max_delay.
    pose proof (Nat.pow_nonzero 2 (Nat.min n 8)). lia. }
  destruct j as [jn jd]. unfold Qle, Qlt, Qmult, inject_Z in *. cbn in *. nia.
Qed.

Lemma product_le_360 n j :
  (0 <= j)%Q -> (j <= 12 # 10)%Q ->
  (inject_Z (Z.of_nat (backoff n)) * j <= 360)%Q.
Proof.
  intros H0 H1. pose proof (backoff_le_max n) as Hb.
  destruct j as [jn jd]. unfold Qle, Qmult, inject_Z in *. cbn in *. nia.
Qed.

Lemma wait_time_positive n j :
  (8 # 10 <= j)%Q ->
  wait_time n j = round_positive (inject_Z (Z.of_nat (backoff n)) * j).
Proof.
  intros Hj. unfold wait_time, round_double.
  now rewrite (proj1 (Qgt_alt _ _) (product_positive n j Hj)).
Qed.

Lemma floor_product_small n j :
  (0 <= j)%Q -> (j <= 12 # 10)%Q ->
  (Qfloor (inject_Z (Z.of_nat (backoff n)) * j) <= 360)%Z.
Proof.
  intros H0 H1. rewrite <- (Qfloor_Z 360).
  apply Qfloor_resp_le. now apply product_le_360.
Qed.

Lemma wait_time_nonneg n j :
  (8 # 10 <= j)%Q -> (j <= 12 # 10)%Q -> (0 <= wait_time n j)%Q.
Proof.
  intros H1 H2. rewrite wait_time_positive by exact H1.
  assert (H0 : (0 <= j)%Q)
    by (eapply Qle_trans; [| exact H1 ]; unfold Qle; cbn; lia).
  apply (round_positive_ge _ 0).
  - apply Qlt_le_weak, product_positive, H1.
  - pose proof (floor_product_small n j H0 H2). lia.
Qed.

Lemma wait_time_bound n j :
  (8 # 10 <= j)%Q -> (j <= 12 # 10)%Q -> (wait_time n j <= 360)%Q.
Proof.
  intros H1 H2. rewrite wait_time_positive by exact H1.
  assert (H0 : (0 <= j)%Q)
    by (eapply Qle_trans; [| exact H1 ]; unfold Qle; cbn; lia).
  apply (round_positive_le _ 360); [ now apply product_le_360 | lia ].
Qed.

(** The rounded product lies between the integer part of the exact
    product and the next integer. *)
Lemma wait_time_near_product n j :
  (8 # 10 <= j)%Q -> (j <= 12 # 10)%Q ->
  let product := (inject_Z (Z.of_nat (backoff n)) * j)%Q in
  (inject_Z (Qfloor product) <= wait_time n j)%Q /\
  (wait_time n j <= inject_Z (Qfloor product + 1))%Q.
Proof.
  intros H1 H2. cbv zeta. rewrite wait_time_positive by exact H1.
  assert (H0 : (0 <= j)%Q)
    by (eapply Qle_trans; [| exact H1 ]; unfold Qle; cbn; lia).
  pose proof (floor_product_small n j H0 H2) as Hfl.
  split.
  - apply round_positive_ge; [ apply Qfloor_le | lia ].
  - apply round_positive_le; [| lia ].
    apply Qlt_le_weak, Qlt_floor.
Qed.

(** On a non-negative number [int] is the integer part. *)
Lemma py_int_floor x :
  (0 <= x)%Q ->
  (inject_Z (py_int x) <= x)%Q /\ (x < inject_Z (py_int x) + 1)%Q.
Proof.
  intros H. assert (E : py_int x = Qfloor x).
  { destruct x as [a b]. unfold py_int, Qfloor. cbn.
    apply Z.quot_div_nonneg; [| lia ].
    unfold Qle in H; cbn in H. lia. }
  rewrite E. split; [ apply Qfloor_le |].
  pose proof (Qlt_floor x) as L. rewrite inject_Z_plus in L. exact L.
Qed.

Lemma count_sleeps_repeat g n : count_sleeps (repeat (EvSleep g) n) = n.
Proof. induction n; cbn; congruence. Qed.

(** C2, amended.  When the connection attempt raises an exception that
    the handlers class as transient (it is not caught by
    [except BotConfigurationError] and its type is not named
    [LoginFailure]) and no shutdown is requested, the supervisor
    increments [retry_count], computes the delay as the float product of
    [min(2 * 2^min(retry_count, 8), 300)] and the jitter, sleeps the
    integer part of that delay in one-second sleeps, and loops again.
    For a jitter in [0.8, 1.2] the delay is at most 360 seconds and lies
    between the integer part of the exact product and the next integer;
    without the jitter it is non-decreasing in [retry_count]. *)
Theorem transient_failure_backoff E w e :
  fatal_error_state (w_globals w) = None ->
  bot_module (w_locals w) = true ->
  discord_module (w_locals w) = true ->
  attempt_raises E e ->
  isinstance e (BotConfigurationError (w_locals w)) = false ->
  (exn_name e =? "LoginFailure")%string = false ->
  (forall k, is_set E k = false) ->
  (8 # 10 <= jitter E)%Q -> (jitter E <= 12 # 10)%Q ->
  let x := iteration E w in
  let n := S (retry_count (w_locals w)) in
  let product :=
    (inject_Z (Z.of_nat (Nat.min (2 * 2 ^ Nat.min n 8) 300)) * jitter E)%Q in
  let delay := round_double product in
  let seconds_slept := Z.of_nat (count_sleeps (events x)) in
  result_of x = Returns true /\
  retry_count (w_locals (final x)) = n /\
  (inject_Z seconds_slept <= delay)%Q /\
  (delay < inject_Z seconds_slept + 1)%Q /\
  (delay <= 360)%Q /\
  (inject_Z (Qfloor product) <= delay)%Q /\
  (delay <= inject_Z (Qfloor product + 1))%Q /\
  (forall m, n <= m -> backoff n <= backoff m).
Proof.
  intros Hf Hb Hd Hraise Hinst Hname Hset Hj1 Hj2.
  pose proof (Hset 0) as Hs0. pose proof (Hset 1) as Hs1.
  cbv zeta. fold (backoff (S (retry_count (w_locals w)))).
  fold (wait_time (S (retry_count (w_locals w))) (jitter E)).
  pose proof (wait_time_nonneg (S (retry_count (w_locals w))) (jitter E)
                Hj1 Hj2) as Hnn.
  destruct (py_int_floor _ Hnn) as [Hlo Hhi].
  destruct (wait_time_near_product (S (retry_count (w_locals w))) (jitter E)
              Hj1 Hj2) as [Hn1 Hn2].
  assert (Hpos : (0 <= py_int (wait_time (S (retry_count (w_locals w)))
                                 (jitter E)))%Z).
  { unfold py_int. apply Z.quot_pos; [| lia ].
    unfold Qle in Hnn; cbn [Qnum Qden] in Hnn. lia. }
  assert (Hcount : count_sleeps (events (iteration E w)) =
                   Z.to_nat (py_int (wait_time (S (retry_count (w_locals w)))
                                                (jitter E))) /\
                   result_of (iteration E w) = Returns true /\
                   retry_count (w_locals (final (iteration E w))) =
                   S (retry_count (w_locals w))).
  { destruct w as [[f t c] [rc bm dm cls] p].
    cbn [w_globals w_locals fatal_error_state bot_module discord_module
         retry_count BotConfigurationError] in *.
    subst f bm dm.
    unfold iteration, loop_body, attempt, handlers, check_fatal.
    destruct cls; cbn [isinstance] in Hinst; [ discriminate |].
    destruct Hraise as [Hc | (h & Hc & Hr)]; run_goal;
      cbn [count_sleeps]; rewrite count_sleeps_repeat, slept_all by assumption;
      repeat split. }
  destruct Hcount as (Hcount & Hres & Hrc).
  rewrite Hcount, Z2Nat.id by assumption.
  repeat split; try assumption.
  - now apply wait_time_bound.
  - intros m. apply backoff_monotone.
Qed.

Lemma transient_failure_backoff_witness :
  let x := iteration (env_transient (7 # 8)) (running_world 0) in
  result_of x = Returns true /\
  retry_count (w_locals (final x)) = 1 /\
  (inject_Z (Z.of_nat (count_sleeps (events x))) <=
   round_double
     (inject_Z (Z.of_nat (Nat.min (2 * 2 ^ Nat.min 1 8) 300)) * (7 # 8)))%Q.
Proof.
  destruct (transient_failure_backoff
              (env_transient (7 # 8)) (running_world 0) connection_reset)
    as (H1 & H2 & H3 & _); try reflexivity.
  - right. exists 1. split; reflexivity.
  - unfold Qle; cbn; lia.
  - unfold Qle; cbn; lia.
  - exact (conj H1 (conj H2 H3)).
Defined.

(** The rounding of the product shows in the sleeps: at the eighth
    transient failure with the jitter 0.8066666666666666 the exact
    product is below 242 and the float product is 242.0, so 242 seconds
    are slept; with the float 1.2 the product is 360.0. *)
Lemma rounded_product_example :
  let j := (454112962426525 # 562949953421312)%Q in
  let x := iteration (env_transient j) (running_world 7) in
  Qfloor (inject_Z (Z.of_nat (backoff 8)) * j) = 241%Z /\
  (wait_time 8 j == 242)%Q /\
  count_sleeps (events x) = 242 /\
  (wait_time 8 (5404319552844595 # 4503599627370496) == 360)%Q.
Proof.
  cbv zeta. repeat split; vm_compute; reflexivity.
Qed.

(** C2 as stated fails: after the first transient failure with a jitter
    of 0.875 the delay is 2 * 2^1 * 0.875 = 3.5 seconds, but the
    supervisor sleeps three times one second ([range(int(wait_time))]). *)
Lemma backoff_sleeps_whole_seconds :
  let x := iteration (env_transient (7 # 8)) (running_world 0) in
  count_sleeps (events x) = 3 /\
  ~ (inject_Z (Z.of_nat (count_sleeps (events x))) ==
     inject_Z (Z.of_nat (Nat.min (2 * 2 ^ Nat.min 1 8) 300)) * (7 # 8))%Q.
Proof.
  cbv zeta. split; [ reflexivity |].
  vm_compute. discriminate.
Qed.

(** ** A normal return of [run] (main.py:157, 200-203) *)

(** C6, amended.  When [run] returns normally and no shutdown is
    requested, no [except] clause runs: the supervisor neither increments
    [retry_count] nor sleeps; it clears [current_bot_instance] and goes
    straight to the next iteration. *)
Theorem normal_return_restarts_at_once E w h :
  fatal_error_state (w_globals w) = None ->
  bot_module (w_locals w) = true ->
  discord_module (w_locals w) = true ->
  create_bot E = Returns h ->
  run E = Returns tt ->
  is_set E 0 = false ->
  let x := iteration E w in
  result_of x = Returns true /\
  w_locals (final x) = w_locals w /\
  count_sleeps (events x) = 0 /\
  fatal_error_state (w_globals (final x)) = None /\
  current_bot_instance (w_globals (final x)) = None.
Proof.
  destruct w as [[f t c] [rc bm dm cls] p].
  cbn [w_globals w_locals fatal_error_state bot_module discord_module].
  intros -> -> -> Hc Hr H0.
  unfold iteration, loop_body, attempt, check_fatal. run_goal.
  repeat split.
Qed.

Lemma normal_return_restarts_at_once_witness :
  let x := iteration (env_at 0%Z) (running_world 0) in
  result_of x = Returns true /\
  w_locals (final x) = w_locals (running_world 0) /\
  count_sleeps (events x) = 0 /\
  fatal_error_state (w_globals (final x)) = None /\
  current_bot_instance (w_globals (final x)) = None.
Proof.
  apply (normal_return_restarts_at_once (env_at 0%Z) (running_world 0) 1);
    reflexivity.
Defined.

(** C6 as stated fails: [run] returns normally with no shutdown
    requested, and [retry_count] is not incremented and nothing is
    slept. *)
Lemma normal_return_is_not_a_failure :
  let w := running_world 0 in
  let x := iteration (env_at 0%Z) w in
  retry_count (w_locals (final x)) <> S (retry_count (w_locals w)) /\
  count_sleeps (events x) = 0.
Proof.
  cbv zeta. split; [ vm_compute; discriminate | reflexivity ].
Qed.

(** ** [retry_count] (main.py:51, 124, 177) *)

(** After the locked section, the rest of the loop body leaves
    [retry_count] as it is or adds one. *)
Lemma loop_body_after_check_fatal E w :
  let c := check_fatal E w in
  let x := loop_body E w in
  retry_count (w_locals (final x)) = retry_count (w_locals (final c)) \/
  retry_count (w_locals (final x)) = S (retry_count (w_locals (final c))).
Proof.
  destruct w as [[f t c] [rc bm dm cls] p]. cbv zeta.
  pose proof (check_fatal_summary E
                (mkWorld (mkGlobals f t c) (mkLocals rc bm dm cls) p)) as R.
  cbv zeta in R.
  destruct (check_fatal E _)
    as [[r [[f1 t1 c1] [rc1 bm1 dm1 cls1] p1]] evs1] eqn:Hcf.
  py_eval_in R. destruct R as (evs & -> & _ & -> & _).
  unfold loop_body, attempt, handlers. run_goal; auto.
Qed.

(** C7, amended.  [retry_count] is reset to 0 by the clearance of the
    fatal error and by nothing else, and it counts the failures classed
    as transient.  When the locked section of a loop body clears the
    descriptor the count is 0 after it, and otherwise the section leaves
    the count as it is.  After the section, an exception of the
    connection attempt that is classed as transient adds exactly one,
    and one that is classed as fatal (caught by
    [except BotConfigurationError], or named [LoginFailure]) adds
    nothing; the wait in the fatal state adds nothing; the exception
    raised for a missing module is classed like any other; a connection
    attempt that succeeds does not reset the count. *)
Theorem retry_count_reset_only_on_clearance E w :
  let c := check_fatal E w in
  let x := loop_body E w in
  let cleared :=
    fatal_error_state (w_globals w) <> None /\
    fatal_error_state (w_globals (final c)) = None in
  let after_section := retry_count (w_locals (final c)) in
  let still_fatal := opt_truthy (fatal_error_state (w_globals (final c))) in
  let cls := BotConfigurationError (w_locals w) in
  (cleared ->
   retry_count (w_locals (final c)) = 0 /\
   retry_count (w_locals (final x)) <= 1) /\
  (~ cleared ->
   retry_count (w_locals w) <= retry_count (w_locals (final x)) /\
   retry_count (w_locals (final x)) <= S (retry_count (w_locals w))) /\
  (fatal_error_state (w_globals w) = None ->
   bot_module (w_locals w) = true ->
   discord_module (w_locals w) = true ->
   (exists h, create_bot E = Returns h /\ run E = Returns tt) ->
   retry_count (w_locals (final x)) = retry_count (w_locals w)) /\
  (~ cleared -> after_section = retry_count (w_locals w)) /\
  (forall e,
      still_fatal = false ->
      bot_module (w_locals (final c)) = true ->
      discord_module (w_locals (final c)) = true ->
      attempt_raises E e ->
      (isinstance e cls = false ->
       (exn_name e =? "LoginFailure")%string = false ->
       retry_count (w_locals (final x)) = S after_section)
      /\
      (isinstance e cls = true \/
       (exn_name e =? "LoginFailure")%string = true ->
       retry_count (w_locals (final x)) = after_section)) /\
  (still_fatal = true ->
   retry_count (w_locals (final x)) = after_section) /\
  (still_fatal = false ->
   bot_module (w_locals (final c)) = false \/
   discord_module (w_locals (final c)) = false ->
   retry_count (w_locals (final x)) =
   if isinstance modules_unavailable cls
   then after_section else S after_section) /\
  (still_fatal = false ->
   bot_module (w_locals (final c)) = true ->
   discord_module (w_locals (final c)) = true ->
   (exists h, create_bot E = Returns h /\ run E = Returns tt) ->
   retry_count (w_locals (final x)) = after_section).
Proof.
  cbv zeta.
  pose proof (loop_body_after_check_fatal E w) as L. cbv zeta in L.
  pose proof (check_fatal_summary E w) as R. cbv zeta in R.
  destruct R as (evs & _ & _ & _ & _ & _ & _ & Hcase).
  split; [| split; [| split; [| split ]]].
  - intros [Hset Hclr].
    destruct Hcase as [(Hf & _ & _) | (_ & _ & Hrc & _)].
    + rewrite Hclr in Hf. now elim Hset.
    + split; [ assumption | lia ].
  - intros Hn.
    destruct Hcase as [(_ & _ & Hrc) | (Hclr & _ & _ & _ & _ & Hset)].
    + lia.
    + elim Hn. now split.
  - intros Hf Hb Hd (h & Hc & Hr).
    destruct w as [[f t c] [rc bm dm cls] p].
    cbn [w_globals w_locals fatal_error_state retry_count
         bot_module discord_module] in *.
    subst f bm dm. clear L Hcase.
    unfold loop_body, attempt, handlers, check_fatal. run_goal. reflexivity.
  - intros Hn.
    destruct Hcase as [(_ & _ & Hrc) | (Hclr & _ & _ & _ & _ & Hset)].
    + exact Hrc.
    + elim Hn. now split.
  - clear L Hcase evs.
    destruct w as [[f t c] [rc bm dm cls] p].
    pose proof (check_fatal_summary E
                  (mkWorld (mkGlobals f t c) (mkLocals rc bm dm cls) p)) as R.
    cbv zeta in R.
    destruct (check_fatal E _)
      as [[r [[f1 t1 c1] [rc1 bm1 dm1 cls1] p1]] evs1] eqn:Hcf.
    py_eval_in R. destruct R as (evs & -> & _ & -> & _ & -> & _).
    split; [| split; [| split ]].
    + intros e Ht Hb Hd Hraise.
      py_eval_in Ht. py_eval_in Hb. py_eval_in Hd. subst bm1 dm1.
      unfold loop_body, attempt, handlers.
      split.
      * intros Hinst Hname. py_eval_in Hinst.
        destruct cls; [ discriminate Hinst |].
        destruct Hraise as [Hc | (h & Hc & Hr)]; run_goal;
          first [ reflexivity | discriminate ].
      * intros Hfatal. py_eval_in Hfatal.
        destruct cls.
        -- destruct Hraise as [Hc | (h & Hc & Hr)]; run_goal;
             first [ reflexivity | discriminate ].
        -- destruct Hfatal as [Hinst | Hname];
             destruct Hraise as [Hc | (h & Hc & Hr)]; run_goal;
             first [ reflexivity | discriminate ].
    + intros Ht. py_eval_in Ht.
      unfold loop_body, attempt, handlers.
      run_goal; first [ reflexivity | discriminate ].
    + intros Ht Hm. py_eval_in Ht. py_eval_in Hm.
      unfold loop_body, attempt, handlers.
      destruct cls; destruct Hm as [Hm | Hm]; subst; run_goal;
        first [ reflexivity | discriminate ].
    + intros Ht Hb Hd (h & Hc & Hr).
      py_eval_in Ht. py_eval_in Hb. py_eval_in Hd. subst bm1 dm1.
      unfold loop_body, attempt, handlers.
      run_goal; first [ reflexivity | discriminate ].
Qed.

Lemma retry_count_reset_only_on_clearance_witness :
  retry_count (w_locals (final (loop_body (env_at 0%Z) (running_world 3)))) = 3
  /\
  retry_count
    (w_locals (final (loop_body (env_transient (1 # 1)) (running_world 3)))) = 4.
Proof.
  split.
  - refine (proj1 (proj2 (proj2 (retry_count_reset_only_on_clearance
                                   (env_at 0%Z) (running_world 3))))
              eq_refl eq_refl eq_refl _).
    exists 1. split; reflexivity.
  - refine (proj1 (proj1 (proj2 (proj2 (proj2 (proj2
              (retry_count_reset_only_on_clearance
                 (env_transient (1 # 1)) (running_world 3))))))
              connection_reset eq_refl eq_refl eq_refl _) eq_refl eq_refl).
    right. exists 1. split; reflexivity.
Defined.

(** C7 as stated fails for the reset on success: after three transient
    failures a connection attempt succeeds ([create_bot] and [run] return
    normally), and [retry_count] is still 3. *)
Lemma successful_run_keeps_retry_count :
  let x := iteration (env_at 0%Z) (running_world 3) in
  result_of x = Returns true /\
  In (EvRun 1 (mkGlobals None None (Some 1))) (events x) /\
  retry_count (w_locals (final x)) = 3 /\
  retry_count (w_locals (final x)) <> 0.
Proof.
  cbv zeta. repeat split.
  - vm_compute. tauto.
  - vm_compute. discriminate.
Qed.

(** ** Fatal classification of the exceptions of [run] (main.py:159-175) *)

(** With [BotConfigurationError] bound to the class of the [bot] module,
    a configuration error or a [LoginFailure] raised by the attempt sets
    the descriptor of its kind and the time, leaves [retry_count] alone,
    and the loop goes on. *)
Lemma fatal_classification E w e :
  fatal_error_state (w_globals w) = None ->
  bot_module (w_locals w) = true ->
  discord_module (w_locals w) = true ->
  BotConfigurationError (w_locals w) = ClsBotConfigurationError ->
  attempt_raises E e ->
  is_set E 0 = false -> is_set E 1 = false ->
  let x := iteration E w in
  (exn_is_BotConfigurationError e = true ->
   result_of x = Returns true /\
   fatal_error_state (w_globals (final x)) =
     Some ("Configuration error: " ++ exn_str e) /\
   last_fatal_error_time (w_globals (final x)) = Some (now_fatal E) /\
   retry_count (w_locals (final x)) = retry_count (w_locals w)) /\
  (exn_is_BotConfigurationError e = false ->
   (exn_name e =? "LoginFailure")%string = true ->
   result_of x = Returns true /\
   fatal_error_state (w_globals (final x)) =
     Some ("Invalid token: " ++ exn_str e) /\
   last_fatal_error_time (w_globals (final x)) = Some (now_fatal E) /\
   retry_count (w_locals (final x)) = retry_count (w_locals w)).
Proof.
  destruct w as [[f t c] [rc bm dm cls] p].
  cbn [w_globals w_locals fatal_error_state bot_module discord_module
       retry_count BotConfigurationError].
  intros -> -> -> -> Hraise H0 H1. cbv zeta.
  unfold iteration, loop_body, attempt, handlers, check_fatal.
  split; [ intros Hcfg | intros Hcfg Hname ];
    destruct Hraise as [Hc | (h & Hc & Hr)]; run_goal; repeat split.
Qed.

(** C8 at the failing input.  The recovery imports the class under the
    name [LocalBotConfigurationError] (main.py:97), so
    [BotConfigurationError] is still [Exception]: the [LoginFailure] of
    the next [run] is caught by the first clause and recorded as a
    configuration error, not as an invalid token. *)
Theorem login_failure_after_import_recovery :
  let x := iteration env_recovered_then_login_failure import_failed_world in
  BotConfigurationError (w_locals import_failed_world) = ClsException /\
  BotConfigurationError (w_locals (final x)) = ClsException /\
  In (EvRun 1 (mkGlobals None None (Some 1))) (events x) /\
  fatal_error_state (w_globals (final x)) =
    Some "Configuration error: Improper token has been passed." /\
  fatal_error_state (w_globals (final x)) <>
    Some ("Invalid token: " ++ exn_str login_failure).
Proof.
  cbv zeta. repeat split.
  - vm_compute. tauto.
  - vm_compute. discriminate.
Qed.

(** ** The [finally] clause (main.py:200-203) *)

(** C9, amended.  Every run of the loop body, however its [try] block
    ends, finishes by clearing [current_bot_instance]; hence the
    variable is [None] at every loop test, before the next attempt
    begins. *)
Theorem instance_cleared_after_loop_body E w :
  current_bot_instance (w_globals (final (loop_body E w))) = None /\
  (reachable w -> current_bot_instance (w_globals w) = None) /\
  (reachable w ->
   current_bot_instance (w_globals (final (iteration E w))) = None).
Proof.
  split; [| split ].
  - unfold loop_body, try_finally.
    destruct (try_except (attempt E) (handlers E) w) as [[r w1] t1].
    reflexivity.
  - intros Hw. now apply reachable_inv.
  - intros Hw. apply (reachable_inv _ (reach_iteration E w Hw)).
Qed.

Lemma instance_cleared_after_loop_body_witness :
  let x := iteration (env_transient (1 # 1)) (running_world 0) in
  In (EvRun 1 (mkGlobals None None (Some 1))) (events x) /\
  In (EvCaught GenericHandler connection_reset) (events x) /\
  current_bot_instance (w_globals (final x)) = None.
Proof.
  cbv zeta. split; [| split ].
  - vm_compute. tauto.
  - vm_compute. tauto.
  - refine (proj2 (proj2 (instance_cleared_after_loop_body
                            (env_transient (1 # 1)) (running_world 0))) _).
    exact (reach_startup ImportOk (Returns true) 0%Z 0%Z eq_refl).
Defined.

(** C9 as stated fails: [run] raises a connection error, and during the
    four seconds of back-off that follow, inside the [except] clause and
    so before the [finally] clause, the other threads still see the
    client of the attempt that has ended. *)
Lemma stale_instance_during_backoff :
  let stale := mkGlobals None None (Some 1) in
  events (iteration (env_transient (1 # 1)) (running_world 0)) =
  [ EvUnlock (mkGlobals None None None); EvCreateBot; EvRun 1 stale;
    EvCaught GenericHandler connection_reset;
    EvSleep stale; EvSleep stale; EvSleep stale; EvSleep stale ] /\
  current_bot_instance stale <> None.
Proof.
  cbv zeta. split; [ reflexivity | discriminate ].
Qed.

(** ** Start-up (main.py:60-77) *)

(** C10, amended.  When the statement [import bot] itself fails with an
    [ImportError] at start-up, [bot_module] stays [None], the credential
    check is skipped, and the only descriptor recorded is the import
    error, whatever the credential. *)
Theorem import_bot_failure_skips_token_check e tok t_import t_token :
  exn_is_ImportError e = true ->
  let x := startup (ImportFails AtBot e) tok t_import t_token initial_world in
  let g := mkGlobals (Some ("Import error: " ++ exn_str e)) (Some t_import)
                     None in
  result_of x = Returns tt /\
  w_globals (final x) = g /\
  events x = [EvImport AtBot; EvUnlock g] /\
  ~ In EvCheckToken (events x).
Proof.
  intros He. cbv zeta. unfold startup, import_modules.
  run_goal. repeat split. cbn. intros [H | [H | []]]; discriminate.
Qed.

Lemma import_bot_failure_skips_token_check_witness :
  let x := startup (ImportFails AtBot no_module_named_bot) (Returns false)
                   5%Z 7%Z initial_world in
  fatal_error_state (w_globals (final x)) =
    Some "Import error: No module named 'bot'" /\
  ~ In EvCheckToken (events x).
Proof.
  destruct (import_bot_failure_skips_token_check
              no_module_named_bot (Returns false) 5%Z 7%Z eq_refl)
    as (_ & Hg & _ & Hn).
  cbv zeta. split; [ now rewrite Hg | exact Hn ].
Defined.

(** C10 as stated fails: [import bot] succeeds and the import of
    [BotConfigurationError] from it fails, so the acquisition has failed
    but [bot_module] is set; the credential check runs, and the missing
    token replaces the import error as the descriptor. *)
Lemma later_import_failure_runs_token_check :
  let x := startup (ImportFails AtBotConfigurationError cannot_import_name)
                   (Returns false) 5%Z 7%Z initial_world in
  In EvCheckToken (events x) /\
  In (EvUnlock
        (mkGlobals
           (Some "Import error: cannot import name 'BotConfigurationError' from 'bot'")
           (Some 5%Z) None)) (events x) /\
  w_globals (final x) =
    mkGlobals (Some "Token Discord manquant") (Some 7%Z) None.
Proof.
  cbv zeta. repeat split; vm_compute; tauto.
Qed.

(** ** The validated recovery (main.py:82-135) *)




(** ** The health endpoint (main.py:544-604) *)

(** C4.  Whatever [update_bot_status] read and whatever the status
    record says about the bot being online, when the descriptor that the
    handler reads is set, [/health] answers 503 with ["unhealthy"],
    [fatal: true], the error message and the time of the error. *)
Theorem health_check_fatal_is_503
        app_start_time probe g_upd t_upd g now bs s :
  visible g ->
  fatal_error_state g = Some s ->
  let body := fst (fst (health_check app_start_time probe g_upd t_upd g now bs)) in
  let code := snd (fst (health_check app_start_time probe g_upd t_upd g now bs)) in
  exists t,
    last_fatal_error_time g = Some t /\
    code = 503%Z /\
    field "status" body = Some (JString "unhealthy") /\
    field "bot_online" body = Some (JBool false) /\
    field "fatal" body = Some (JBool true) /\
    field "error" body = Some (JString ("Fatal error: " ++ s)) /\
    field "error_time" body = Some (JIsoformat t).
Proof.
  intros Hv Hf.
  pose proof (visible_consistent g Hv) as Hc. unfold consistent in Hc.
  rewrite Hf in Hc.
  destruct (last_fatal_error_time g) as [t|] eqn:Ht; [| contradiction ].
  exists t. cbv zeta. unfold health_check.
  rewrite Hf, Ht. cbn [opt_truthy]. rewrite Hc. cbn.
  repeat split.
Qed.

Lemma health_check_fatal_is_503_witness :
  let r := health_check 0%Z (fun _ => ready_view)
             (mkGlobals None None (Some 1)) 5000000%Z
             (w_globals missing_token_world) 5000001%Z stale_online_status in
  online (snd r) = true /\
  snd (fst r) = 503%Z /\
  field "error" (fst (fst r)) =
    Some (JString "Fatal error: Token Discord manquant").
Proof.
  destruct (health_check_fatal_is_503 0%Z (fun _ => ready_view)
              (mkGlobals None None (Some 1)) 5000000%Z
              (w_globals missing_token_world) 5000001%Z stale_online_status
              "Token Discord manquant")
    as (t & _ & Hcode & _ & _ & _ & Herr & _).
  - apply vis_loop_test. unfold missing_token_world.
    apply reach_startup. reflexivity.
  - reflexivity.
  - exact (conj eq_refl (conj Hcode Herr)).
Defined.

(** C5, amended.  With no fatal error read by the handler and the bot
    offline after the update, [/health] answers 200 when
    [offline_duration] is at most 120 seconds and 503 when it exceeds
    120 seconds, where [offline_duration] is the time since
    [offline_since] (0 when that is not set); and [offline_since] is the
    start of the process only for a bot that has not been seen online
    before, while for a bot seen online it is the time of the update that
    found it offline. *)
Theorem health_check_grace_period
        app_start_time probe g_upd t_upd g now bs :
  opt_truthy (fatal_error_state g) = false ->
  let bs' := update_bot_status app_start_time probe g_upd t_upd bs in
  let r := health_check app_start_time probe g_upd t_upd g now bs in
  let offline_duration :=
    match offline_since bs' with
    | Some t => total_seconds (now - t)%Z
    | None => 0%Q
    end in
  online bs' = false ->
  ((offline_duration <= 120)%Q ->
   snd (fst r) = 200%Z /\
   field "status" (fst (fst r)) = Some (JString "healthy") /\
   field "bot_online" (fst (fst r)) = Some (JBool false)) /\
  ((120 < offline_duration)%Q ->
   snd (fst r) = 503%Z /\
   field "status" (fst (fst r)) = Some (JString "unhealthy") /\
   field "offline_duration" (fst (fst r)) = Some (JNumber offline_duration)) /\
  (online bs = true -> offline_since bs' = Some t_upd) /\
  (online bs = false -> offline_since bs = None ->
   fatal_error_state g_upd = None ->
   (forall h e, is_ready (probe h) <> Raises e) ->
   offline_since bs' = Some app_start_time).
Proof.
  intros Hg. cbv zeta. intros Hoff.
  split; [| split; [| split ]].
  - intros Hle. apply (exceeds_false _ 120) in Hle.
    unfold health_check. rewrite Hg, Hoff. unfold grace_period.
    rewrite Hle. cbn. repeat split.
  - intros Hlt. apply (exceeds_true _ 120) in Hlt.
    unfold health_check. rewrite Hg, Hoff. unfold grace_period.
    rewrite Hlt. cbn. repeat split.
  - intros Hon. revert Hoff.
    unfold update_bot_status, instance_branch, fatal_branch, online_branch,
      offline_branch, update_failed.
    rewrite Hon.
    destruct (fatal_error_state g_upd) as [s|]; [ destruct (truthy s) |];
      try (destruct (current_bot_instance g_upd) as [h|];
           [ destruct (is_ready (probe h)) as [[|]|] |]);
      cbn; intros H; try discriminate; reflexivity.
  - intros Hon Hsince Hf Hp. revert Hoff.
    unfold update_bot_status, instance_branch, fatal_branch, online_branch,
      offline_branch, update_failed.
    rewrite Hon, Hsince, Hf.
    destruct (current_bot_instance g_upd) as [h|];
      [ destruct (is_ready (probe h)) as [[|]|e] eqn:Hr |];
      cbn; intros H; try discriminate; try reflexivity.
    now elim (Hp h e).
Qed.

Lemma health_check_grace_period_witness :
  let r := health_check 0%Z (fun _ => ready_view)
             (mkGlobals None None None) 120000000%Z
             (mkGlobals None None None) 120000000%Z initial_bot_status in
  snd (fst r) = 200%Z /\
  field "status" (fst (fst r)) = Some (JString "healthy") /\
  field "bot_online" (fst (fst r)) = Some (JBool false).
Proof.
  refine (proj1 (health_check_grace_period 0%Z (fun _ => ready_view)
                   (mkGlobals None None None) 120000000%Z
                   (mkGlobals None None None) 120000000%Z initial_bot_status
                   eq_refl eq_refl) _).
  cbn. unfold Qle; cbn; lia.
Defined.

(** C5 as stated fails for a bot that has been online: the process
    started at time 0, the bot was seen online (the status record says
    so), and the update of this request, 2000 seconds after the start,
    finds no client.  50 seconds later the bot is offline and the
    process has run for 2050 seconds, far beyond a grace period of 120
    seconds counted from the start of the process, and [/health] still
    answers 200: [offline_since] is the time of that update. *)
Lemma grace_period_not_since_process_start :
  let app_start_time := 0%Z in
  let now := 2050000000%Z in
  let r := health_check app_start_time (fun _ => ready_view)
             (mkGlobals None None None) 2000000000%Z
             (mkGlobals None None None) now stale_online_status in
  online (snd r) = false /\
  offline_since (snd r) = Some 2000000000%Z /\
  (120 < total_seconds (now - app_start_time)%Z)%Q /\
  snd (fst r) = 200%Z /\
  snd (fst r) <> 503%Z.
Proof.
  cbv zeta. repeat split; vm_compute; discriminate.
Qed.

(** * Further properties of the supervisor *)

(** ** No exception leaves the loop (main.py:79-203) *)

Lemma handlers_returns E e w :
  exists f, result_of (handlers E e w) = Returns f.
Proof.
  destruct w as [[f t c] [rc bm dm cls] p].
  unfold handlers. run_goal; eexists; reflexivity.
Qed.

Lemma loop_body_returns E w :
  exists f, result_of (loop_body E w) = Returns f.
Proof.
  unfold loop_body, try_finally, try_except.
  destruct (attempt E w) as [[[fl|e] w1] t1].
  - py_eval. now exists fl.
  - destruct (handlers_returns E e w1) as [fl Hfl].
    destruct (handlers E e w1) as [[r2 w2] t2]. py_eval_in Hfl. subst r2.
    py_eval. now exists fl.
Qed.

Lemma iteration_returns E w :
  exists again, result_of (iteration E w) = Returns again.
Proof.
  destruct w as [g l p]. unfold iteration. py_eval.
  destruct (is_set E 0); py_eval; [ now exists false |].
  destruct (loop_body_returns E (mkWorld g l 1)) as [fl Hfl].
  destruct (loop_body E _) as [[r w1] t1]. py_eval_in Hfl. subst r.
  py_eval. eexists; reflexivity.
Qed.

(** X1.  Whatever the imports, the token check, [create_bot], [run], the
    clock and the shutdown event answer, and from whatever state, no
    exception leaves the loop: every exception raised in the loop body
    is caught by one of its handlers. *)
Theorem supervisor_loop_never_raises Es w :
  result_of (run_loop Es w) = Returns tt.
Proof.
  revert w. induction Es as [|E Es IH]; intros w; [ reflexivity |].
  cbn [run_loop]. unfold bind.
  destruct (iteration_returns E w) as [again Ha].
  destruct (iteration E w) as [[r w1] t1]. py_eval_in Ha. subst r.
  destruct again; [| reflexivity ].
  specialize (IH w1). destruct (run_loop Es w1) as [[r2 w2] t2].
  py_eval_in IH. now subst r2.
Qed.

(** ** Exceptions that end the thread at start-up (main.py:60-77) *)

(** X2.  Start-up lets an exception escape, which ends the supervisor
    thread before its loop, in two cases only: an import raises something
    that is not an [ImportError], or the [bot] module was imported and
    [check_token()] raises.  In the second case a descriptor written for
    a failed later import stays behind. *)
Theorem startup_escapes imp tok t_import t_token e :
  result_of (startup imp tok t_import t_token initial_world) = Raises e <->
  (exists stage, imp = ImportFails stage e /\ exn_is_ImportError e = false) \/
  (tok = Raises e /\
   (imp = ImportOk \/
    exists stage e', imp = ImportFails stage e' /\ stage <> AtBot /\
                     exn_is_ImportError e' = true)).
Proof.
  unfold startup, import_modules.
  destruct imp as [|stage e']; [| destruct stage;
    destruct (exn_is_ImportError e') eqn:He' ];
    destruct tok as [[|]|e0]; run_goal; split;
    try (intros H; discriminate H);
    try (intros H; injection H as <-);
    try (intros [(st & H & H') | (H & [H' | (st & e1 & H' & Hs & H'')])];
         try discriminate H; try discriminate H';
         try (injection H as <-); try (injection H' as <- <-);
         try congruence; try reflexivity);
    try (left; eexists; split; [ reflexivity | assumption ]);
    try (right; split; [ reflexivity |]; first
           [ left; reflexivity
           | right; do 2 eexists;
             split; [ reflexivity | split; [ discriminate | assumption ] ] ]).
Qed.

Lemma startup_escapes_witness :
  result_of (startup (ImportFails AtBot syntax_error) (Returns true)
                     0%Z 0%Z initial_world) = Raises syntax_error.
Proof.
  apply (proj2 (startup_escapes (ImportFails AtBot syntax_error)
                  (Returns true) 0%Z 0%Z syntax_error)).
  left. exists AtBot. split; reflexivity.
Defined.

(** ** Back-off values (main.py:186) *)

(** X3.  The delay before the jitter doubles from 4 seconds after the
    first failure up to 256 seconds after the seventh, and is 300 seconds
    from the eighth failure on: the cap of the exponent at 8 never
    decides, the maximum does. *)
Theorem backoff_closed_form n :
  backoff n = if (n <=? 7)%nat then 2 ^ (n + 1) else 300.
Proof.
  do 8 (destruct n as [|n]; [ reflexivity |]).
  unfold backoff.
  replace (Nat.min (S (S (S (S (S (S (S (S n)))))))) 8) with 8 by lia.
  reflexivity.
Qed.

(** ** Sleeping and the shutdown event (main.py:140-143, 182-183, 196-199) *)

Lemma slept_none E n p :
  (forall j, j < n -> is_set E (p + j) = false) -> slept E n p = n.
Proof.
  revert p. induction n as [|n IH]; intros p H; cbn; [ reflexivity |].
  rewrite <- (Nat.add_0_r p) at 1. rewrite (H 0) by lia.
  f_equal. apply IH. intros j Hj.
  replace (S p + j) with (p + S j) by lia. apply H. lia.
Qed.

Lemma slept_first_set E n p k :
  k < n ->
  (forall j, j < k -> is_set E (p + j) = false) ->
  is_set E (p + k) = true ->
  slept E n p = k.
Proof.
  revert p k. induction n as [|n IH]; intros p k Hk Hf Ht; [ lia |].
  cbn. destruct k as [|k].
  - rewrite Nat.add_0_r in Ht. now rewrite Ht.
  - rewrite <- (Nat.add_0_r p) at 1. rewrite (Hf 0) by lia.
    f_equal. apply IH; [ lia | |].
    + intros j Hj. replace (S p + j) with (p + S j) by lia. apply Hf. lia.
    + now replace (S p + k) with (p + S k) by lia.
Qed.

Lemma waiting_iteration_events E w s t :
  fatal_error_state (w_globals w) = Some s ->
  last_fatal_error_time (w_globals w) = Some t ->
  truthy s = true ->
  exceeds (total_seconds (now_check E - t)%Z) 600 = false ->
  is_set E 0 = false ->
  result_of (iteration E w) = Returns true /\
  events (iteration E w) =
  EvUnlock (w_globals w) :: repeat (EvSleep (w_globals w)) (slept E 30 1).
Proof.
  destruct w as [[f t0 c] [rc bm dm cls] p]. cbn [w_globals w_locals
    fatal_error_state last_fatal_error_time].
  intros -> -> Ht Hx H0.
  unfold iteration, loop_body, attempt, check_fatal. run_goal.
  split; reflexivity.
Qed.

(** X4.  In the fatal state below the threshold an iteration sleeps 30
    times one second when the shutdown event stays clear, and when the
    event is first found set at the poll after [k] sleeps it sleeps
    exactly [k] times and no more before going back to the loop test. *)
Theorem fatal_wait_is_cancellable E w s t :
  reachable w ->
  fatal_error_state (w_globals w) = Some s ->
  last_fatal_error_time (w_globals w) = Some t ->
  (total_seconds (now_check E - t)%Z <= 600)%Q ->
  is_set E 0 = false ->
  let x := iteration E w in
  result_of x = Returns true /\
  ((forall j, j < 30 -> is_set E (1 + j) = false) ->
   count_sleeps (events x) = 30) /\
  (forall k, k < 30 ->
             (forall j, j < k -> is_set E (1 + j) = false) ->
             is_set E (1 + k) = true ->
             count_sleeps (events x) = k).
Proof.
  intros Hw Hf Ht Hle H0. cbv zeta.
  assert (Hs : truthy s = true).
  { destruct (reachable_inv w Hw) as [Hc _]. unfold consistent in Hc.
    now rewrite Hf, Ht in Hc. }
  apply (exceeds_false _ 600) in Hle.
  destruct (waiting_iteration_events E w s t Hf Ht Hs Hle H0) as [Hr ->].
  cbn [count_sleeps]. rewrite count_sleeps_repeat.
  split; [ exact Hr | split ].
  - apply slept_none.
  - intros k. apply slept_first_set.
Qed.

Lemma fatal_wait_is_cancellable_witness :
  count_sleeps (events (iteration (env_shutdown_from 6) missing_token_world))
  = 5.
Proof.
  refine (proj2 (proj2 (fatal_wait_is_cancellable
                          (env_shutdown_from 6) missing_token_world
                          "Token Discord manquant" 0%Z _ eq_refl eq_refl _
                          eq_refl)) 5 _ _ eq_refl).
  - unfold missing_token_world. apply reach_startup. reflexivity.
  - cbn. unfold Qle; cbn; lia.
  - lia.
  - intros j Hj. cbn [is_set env_shutdown_from]. apply Nat.leb_gt. lia.
Defined.

(** X5.  When the shutdown event is found set at the check of the generic
    handler, the loop ends without any back-off sleep, and the [finally]
    clause has still cleared [current_bot_instance]. *)
Theorem shutdown_in_handler_ends_loop E w e :
  fatal_error_state (w_globals w) = None ->
  bot_module (w_locals w) = true ->
  discord_module (w_locals w) = true ->
  attempt_raises E e ->
  isinstance e (BotConfigurationError (w_locals w)) = false ->
  is_set E 0 = false ->
  is_set E 1 = true ->
  let x := iteration E w in
  result_of x = Returns false /\
  count_sleeps (events x) = 0 /\
  current_bot_instance (w_globals (final x)) = None.
Proof.
  destruct w as [[f t c] [rc bm dm cls] p].
  cbn [w_globals w_locals fatal_error_state bot_module discord_module
       BotConfigurationError].
  intros -> -> -> Hraise Hinst H0 H1. cbv zeta.
  destruct cls; cbn [isinstance] in Hinst; [ discriminate |].
  unfold iteration, loop_body, attempt, handlers, check_fatal.
  destruct Hraise as [Hc | (h & Hc & Hr)]; run_goal; repeat split.
Qed.

Lemma shutdown_in_handler_ends_loop_witness :
  let x := iteration (env_shutdown_from 1) (running_world 0) in
  result_of x = Returns false /\
  count_sleeps (events x) = 0 /\
  current_bot_instance (w_globals (final x)) = None.
Proof.
  apply (shutdown_in_handler_ends_loop (env_shutdown_from 1) (running_world 0)
           connection_reset); try reflexivity.
  right. exists 1. split; reflexivity.
Defined.

(** X6.  With [BotConfigurationError] bound to the class of the [bot]
    module, a [LoginFailure] raised by [run] that is not an instance of
    that class is handled inside the generic clause: the descriptor is
    set at once, and the supervisor still sleeps the back-off of the
    current, unchanged [retry_count], [int] of the float product of
    main.py:188; during these sleeps the other threads see the
    descriptor together with the client of the attempt that failed. *)
Theorem login_failure_backs_off E w e h :
  fatal_error_state (w_globals w) = None ->
  bot_module (w_locals w) = true ->
  discord_module (w_locals w) = true ->
  BotConfigurationError (w_locals w) = ClsBotConfigurationError ->
  create_bot E = Returns h ->
  run E = Raises e ->
  exn_is_BotConfigurationError e = false ->
  (exn_name e =? "LoginFailure")%string = true ->
  (forall k, is_set E k = false) ->
  let x := iteration E w in
  let g := mkGlobals (Some ("Invalid token: " ++ exn_str e))
                     (Some (now_fatal E)) (Some h) in
  let n := Z.to_nat (py_int (wait_time (retry_count (w_locals w)) (jitter E))) in
  retry_count (w_locals (final x)) = retry_count (w_locals w) /\
  count_sleeps (events x) = n /\
  (forall ev, In ev (events x) -> waiting_event ev ->
              snapshot ev = Some g \/ ev = EvUnlock (w_globals w)) /\
  (0 < n -> In (EvSleep g) (events x)).
Proof.
  destruct w as [[f t c] [rc bm dm cls] p].
  cbn [w_globals w_locals fatal_error_state bot_module discord_module
       BotConfigurationError retry_count].
  intros -> -> -> -> Hc Hr Hcfg Hname Hset. cbv zeta.
  pose proof (Hset 0) as H0. pose proof (Hset 1) as H1.
  unfold iteration, loop_body, attempt, handlers, check_fatal. run_goal.
  rewrite (slept_all E _ 2 Hset).
  cbn [count_sleeps]. rewrite count_sleeps_repeat.
  split; [ reflexivity | split; [ reflexivity | split ] ].
  - intros ev Hin Hwait.
    destruct Hin as [<- | [<- | [<- | [<- | [<- | Hin]]]]];
      try contradiction; auto.
    apply repeat_spec in Hin. subst ev. now left.
  - intros Hn. do 5 right.
    destruct (Z.to_nat (py_int (wait_time rc (jitter E)))); [ lia |].
    now left.
Qed.

Lemma login_failure_backs_off_witness :
  let x := iteration env_recovered_then_login_failure (running_world 0) in
  count_sleeps (events x) = 2 /\
  In (EvSleep (mkGlobals (Some "Invalid token: Improper token has been passed.")
                         (Some 700000000%Z) (Some 1))) (events x).
Proof.
  destruct (login_failure_backs_off env_recovered_then_login_failure
              (running_world 0) login_failure 1)
    as (_ & Hn & _ & Hin); try reflexivity.
  split; [ exact Hn | apply Hin; vm_compute; lia ].
Defined.

(** ** The local names of the loop (main.py:56-63, 96-98) *)

Lemma recovery_locals E s w :
  let x := recovery E s w in
  (bot_module (w_locals w) = true -> bot_module (w_locals (final x)) = true) /\
  (discord_module (w_locals w) = true ->
   discord_module (w_locals (final x)) = true).
Proof.
  destruct w as [[f t c] [rc bm dm cls] p]. cbv zeta.
  unfold recovery, import_modules. run_goal; split; auto.
Qed.

Lemma check_fatal_locals E w :
  let x := check_fatal E w in
  (bot_module (w_locals w) = true -> bot_module (w_locals (final x)) = true) /\
  (discord_module (w_locals w) = true ->
   discord_module (w_locals (final x)) = true).
Proof.
  destruct w as [[f t c] [rc bm dm cls] p]. cbv zeta.
  unfold check_fatal.
  destruct f as [s|]; [| py_eval; split; auto ].
  destruct t as [t|]; [| py_eval; split; auto ].
  destruct (truthy s) eqn:Ht; [| py_eval; rewrite Ht; py_eval; split; auto ].
  destruct (exceeds (total_seconds (now_check E - t)%Z) 600) eqn:Hx;
    [| py_eval; rewrite Ht, Hx; py_eval; split; auto ].
  pose proof (recovery_locals E s
                (mkWorld (mkGlobals (Some s) (Some t) c) (mkLocals rc bm dm cls) p))
    as R. cbv zeta in R.
  pose proof (recovery_summary E s
                (mkWorld (mkGlobals (Some s) (Some t) c) (mkLocals rc bm dm cls) p))
    as R'. cbv zeta in R'.
  py_eval. rewrite Ht, Hx. py_eval.
  destruct (recovery E s _) as [[r [g1 [rc1 bm1 dm1 cls1] p1]] evs1].
  py_eval_in R. py_eval_in R'. destruct R' as (-> & _). py_eval. exact R.
Qed.

Lemma loop_body_locals E w :
  let x := loop_body E w in
  BotConfigurationError (w_locals (final x)) = BotConfigurationError (w_locals w) /\
  (bot_module (w_locals w) = true -> bot_module (w_locals (final x)) = true) /\
  (discord_module (w_locals w) = true ->
   discord_module (w_locals (final x)) = true).
Proof.
  destruct w as [[f t c] [rc bm dm cls] p]. cbv zeta.
  pose proof (check_fatal_summary E
                (mkWorld (mkGlobals f t c) (mkLocals rc bm dm cls) p)) as R.
  pose proof (check_fatal_locals E
                (mkWorld (mkGlobals f t c) (mkLocals rc bm dm cls) p)) as L.
  cbv zeta in R, L.
  destruct (check_fatal E _)
    as [[r [[f1 t1 c1] [rc1 bm1 dm1 cls1] p1]] evs1] eqn:Hcf.
  py_eval_in R. py_eval_in L.
  destruct R as (evs & -> & _ & -> & _ & -> & _).
  unfold loop_body, attempt, handlers. run_goal; split; auto.
Qed.

(** X7.  The loop never rebinds [BotConfigurationError]: whatever
    start-up bound the name to, the class of the [bot] module or the
    fall-back [Exception], every later [except BotConfigurationError]
    uses that, also after a recovery that re-imported the modules; and a
    module name that is bound stays bound. *)
Theorem loop_keeps_local_bindings Es w :
  let x := run_loop Es w in
  BotConfigurationError (w_locals (final x)) = BotConfigurationError (w_locals w) /\
  (bot_module (w_locals w) = true -> bot_module (w_locals (final x)) = true) /\
  (discord_module (w_locals w) = true ->
   discord_module (w_locals (final x)) = true).
Proof.
  revert w. induction Es as [|E Es IH]; intros w; cbv zeta.
  - cbn. auto.
  - assert (It : BotConfigurationError (w_locals (final (iteration E w))) =
                 BotConfigurationError (w_locals w) /\
                 (bot_module (w_locals w) = true ->
                  bot_module (w_locals (final (iteration E w))) = true) /\
                 (discord_module (w_locals w) = true ->
                  discord_module (w_locals (final (iteration E w))) = true)).
    { destruct w as [g l p]. unfold iteration. py_eval.
      destruct (is_set E 0); py_eval; [ auto |].
      pose proof (loop_body_locals E (mkWorld g l 1)) as L. cbv zeta in L.
      destruct (loop_body E _) as [[[fl|e] w1] t1]; py_eval_in L; py_eval;
        exact L. }
    cbn [run_loop]. unfold bind.
    destruct (iteration E w) as [[[again|e] w1] t1]; py_eval_in It;
      [| py_eval; exact It ].
    destruct again; [| py_eval; exact It ].
    specialize (IH w1). cbv zeta in IH.
    destruct (run_loop Es w1) as [[r w2] t2]. py_eval_in IH. py_eval.
    destruct It as (I1 & I2 & I3), IH as (J1 & J2 & J3).
    repeat split; [ congruence | auto | auto ].
Qed.

Lemma loop_keeps_local_bindings_witness :
  BotConfigurationError
    (w_locals (final (run_loop [env_recovered_then_login_failure; env_at 0%Z]
                               import_failed_world))) = ClsException.
Proof.
  exact (proj1 (loop_keeps_local_bindings
                  [env_recovered_then_login_failure; env_at 0%Z]
                  import_failed_world)).
Defined.

(** ** A fatal state that cannot clear (main.py:95-130) *)

Lemma stuck_iteration E w s t :
  fatal_error_state (w_globals w) = Some s ->
  last_fatal_error_time (w_globals w) = Some t ->
  truthy s = true ->
  contains "Import error" s = false ->
  bot_module (w_locals w) && discord_module (w_locals w) = false ->
  let x := iteration E w in
  fatal_error_state (w_globals (final x)) = Some s /\
  last_fatal_error_time (w_globals (final x)) = Some t /\
  w_locals (final x) = w_locals w /\
  Forall stuck_event (events x).
Proof.
  destruct w as [[f t0 c] [rc bm dm cls] p]. cbn [w_globals w_locals
    fatal_error_state last_fatal_error_time bot_module discord_module].
  intros -> -> Ht Hc Hm. cbv zeta.
  unfold iteration, loop_body, attempt, check_fatal, recovery. run_goal.
  all: try discriminate Hm.
  all: repeat split;
    repeat (apply Forall_cons; [ exact I |]); try apply Forall_nil;
    apply Forall_forall; intros ev Hin; now rewrite (repeat_spec _ _ _ Hin).
Qed.

(** X8.  When the descriptor does not contain ["Import error"] while one
    of the two modules is not bound, as after a start-up where the
    import of [discord] failed and the missing token then replaced the
    import error, the recovery never re-imports and never gets to the
    token check: whatever the later answers, the descriptor stays, and
    the loop only starts recoveries, releases its lock and sleeps. *)
Theorem fatal_state_without_modules_never_clears Es w s t :
  reachable w ->
  fatal_error_state (w_globals w) = Some s ->
  last_fatal_error_time (w_globals w) = Some t ->
  contains "Import error" s = false ->
  bot_module (w_locals w) && discord_module (w_locals w) = false ->
  let x := run_loop Es w in
  fatal_error_state (w_globals (final x)) = Some s /\
  last_fatal_error_time (w_globals (final x)) = Some t /\
  forall ev, In ev (events x) ->
             stuck_event ev /\ ~ connection_event ev /\ ev <> EvCheckToken.
Proof.
  intros Hw Hf Ht Hc Hm.
  assert (Hs : truthy s = true).
  { destruct (reachable_inv w Hw) as [Hcs _]. unfold consistent in Hcs.
    now rewrite Hf, Ht in Hcs. }
  clear Hw. cbv zeta.
  assert (G : fatal_error_state (w_globals (final (run_loop Es w))) = Some s /\
              last_fatal_error_time (w_globals (final (run_loop Es w))) = Some t /\
              Forall stuck_event (events (run_loop Es w))).
  { revert w Hf Ht Hm. induction Es as [|E Es IH]; intros w Hf Ht Hm.
    - cbn. repeat split; try assumption. constructor.
    - pose proof (stuck_iteration E w s t Hf Ht Hs Hc Hm) as W.
      cbv zeta in W. cbn [run_loop]. unfold bind.
      destruct (iteration E w) as [[[again|e] w1] t1]; py_eval_in W;
        destruct W as (Hf1 & Ht1 & Hl1 & Hev1); [| py_eval; now repeat split ].
      destruct again.
      + assert (Hm1 : bot_module (w_locals w1) && discord_module (w_locals w1)
                      = false)
          by (py_eval; py_eval_in Hm; rewrite Hl1; exact Hm).
        specialize (IH w1 Hf1 Ht1 Hm1).
        destruct (run_loop Es w1) as [[r w2] t2]. py_eval_in IH. py_eval.
        destruct IH as (Hf2 & Ht2 & Hev2).
        repeat split; try assumption. now apply Forall_app.
      + py_eval. rewrite app_nil_r. now repeat split. }
  destruct G as (G1 & G2 & G3). repeat split; try assumption;
    rewrite Forall_forall in G3; specialize (G3 ev H);
    destruct ev; try contradiction; try exact I; try discriminate;
    intros F; exact F.
Qed.

Lemma fatal_state_without_modules_never_clears_witness :
  fatal_error_state
    (w_globals (final (run_loop [env_at 601000000%Z; env_at 1300000000%Z]
                                discord_missing_world)))
  = Some "Token Discord manquant".
Proof.
  refine (proj1 (fatal_state_without_modules_never_clears
                   [env_at 601000000%Z; env_at 1300000000%Z]
                   discord_missing_world "Token Discord manquant" 1%Z
                   _ eq_refl eq_refl eq_refl eq_refl)).
  unfold discord_missing_world. apply reach_startup. reflexivity.
Defined.

(** ** When a client runs (main.py:138-157) *)

Lemma handlers_run_ok E e w : Forall run_ok (events (handlers E e w)).
Proof.
  destruct w as [[f t c] [rc bm dm cls] p].
  unfold handlers. run_goal;
    repeat (apply Forall_cons; [ exact I |]); try apply Forall_nil;
    apply Forall_forall; intros ev Hin; now rewrite (repeat_spec _ _ _ Hin).
Qed.

Lemma attempt_run_ok E w :
  consistent (w_globals w) -> Forall run_ok (events (attempt E w)).
Proof.
  destruct w as [[f t c] [rc bm dm cls] p]. intros Hc.
  pose proof (check_fatal_summary E
                (mkWorld (mkGlobals f t c) (mkLocals rc bm dm cls) p)) as R.
  cbv zeta in R.
  destruct (check_fatal E _)
    as [[r [[f1 t1 c1] [rc1 bm1 dm1 cls1] p1]] evs1] eqn:Hcf.
  py_eval_in R. destruct R as (evs & -> & Hs & -> & _ & _ & _ & Hcase).
  assert (Hc' : consistent (mkGlobals f1 t1 c1))
    by (destruct Hcase as [(-> & -> & _) | (-> & -> & _)];
        [ exact Hc | exact I ]).
  clear Hcase Hc.
  assert (Hevs : Forall run_ok evs).
  { revert Hs. apply Forall_impl. intros ev H. unfold silent in H.
    now destruct ev. }
  unfold attempt. run_goal.
  all: rewrite <- ?app_assoc; apply Forall_app; split; [ exact Hevs |];
    cbn [app]; unfold consistent in Hc'; cbn in Hc';
    try (destruct t1; try contradiction; try congruence);
    repeat (apply Forall_cons; [ first [ exact I | now repeat split ] |]);
    try apply Forall_nil;
    try (apply Forall_forall; intros ev Hin;
         now rewrite (repeat_spec _ _ _ Hin)).
Qed.

(** X9.  A client only ever runs while no fatal error is recorded, and
    the client that runs is the one published in
    [current_bot_instance]: every [run] of an iteration shows the
    descriptor and its time unset and the instance equal to the client
    being run. *)
Theorem run_only_without_fatal_error E w ev :
  reachable w ->
  In ev (events (iteration E w)) ->
  run_ok ev.
Proof.
  intros Hw. destruct (reachable_inv w Hw) as [Hc _]. clear Hw.
  assert (G : Forall run_ok (events (iteration E w))).
  { destruct w as [g l p]. unfold iteration. py_eval.
    destruct (is_set E 0); py_eval; [ constructor |].
    assert (L : Forall run_ok (events (loop_body E (mkWorld g l 1)))).
    { pose proof (attempt_run_ok E (mkWorld g l 1) Hc) as A.
      unfold loop_body, try_finally, try_except.
      destruct (attempt E _) as [[[fl|e] w1] t1]; py_eval_in A; py_eval;
        rewrite ?app_nil_r; [ exact A |].
      pose proof (handlers_run_ok E e w1) as B.
      destruct (handlers E e w1) as [[r2 w2] t2]. py_eval_in B. py_eval.
      rewrite app_nil_r. now apply Forall_app. }
    destruct (loop_body E _) as [[[fl|e] w1] t1]; py_eval_in L; py_eval;
      rewrite ?app_nil_r; exact L. }
  rewrite Forall_forall in G. apply G.
Qed.

Lemma run_only_without_fatal_error_witness :
  run_ok (EvRun 1 (mkGlobals None None (Some 1))).
Proof.
  apply (run_only_without_fatal_error (env_at 601000000%Z) missing_token_world).
  - unfold missing_token_world. apply reach_startup. reflexivity.
  - vm_compute. tauto.
Defined.

(** ** The steps of the preflight (main.py:92-133) *)

(** X10.  The preflight goes step by step: a client is constructed only
    after [check_token()] returned true, the login is tried only after
    the construction returned, a re-import that fails stops it before
    the token check, and a descriptor that was set is cleared only when
    token check, construction and login have all succeeded. *)
Theorem preflight_steps_in_order E s w :
  let x := recovery E s w in
  (In EvPreflightCreate (events x) -> check_token E = Returns true) /\
  (In EvPreflightLogin (events x) ->
   check_token E = Returns true /\ preflight_create E = Returns tt) /\
  (contains "Import error" s = true -> reimport E <> ImportOk ->
   ~ In EvCheckToken (events x)) /\
  (fatal_error_state (w_globals w) <> None ->
   fatal_error_state (w_globals (final x)) = None ->
   check_token E = Returns true /\ preflight_create E = Returns tt /\
   preflight_login E = Returns tt).
Proof.
  destruct w as [[f t c] [rc bm dm cls] p]. cbv zeta.
  unfold recovery, import_modules. run_goal.
  all: repeat match goal with u : unit |- _ => destruct u end.
  all: cbn [In]; repeat split; intros;
    repeat match goal with
           | H : _ \/ _ |- _ => destruct H
           | H : False |- _ => destruct H
           end;
    try discriminate; try congruence; try reflexivity;
    try (intros F; repeat (destruct F as [F | F]; try discriminate F);
         exact F).
Qed.

Lemma preflight_steps_in_order_witness :
  ~ In EvCheckToken
      (events (recovery env_bot_still_missing
                        "Import error: No module named 'bot'"
                        import_failed_world)).
Proof.
  refine (proj1 (proj2 (proj2 (preflight_steps_in_order
                                 env_bot_still_missing
                                 "Import error: No module named 'bot'"
                                 import_failed_world))) eq_refl _).
  discriminate.
Defined.

(** X11.  A preflight that passes is followed, in the same run of the
    loop body, by the connection attempt: a second client is constructed
    with [create_bot()], published and run. *)
Theorem recovery_then_attempt_in_same_iteration E w s t h :
  fatal_error_state (w_globals w) = Some s ->
  last_fatal_error_time (w_globals w) = Some t ->
  truthy s = true ->
  (600 < total_seconds (now_check E - t)%Z)%Q ->
  (contains "Import error" s = true -> reimport E = ImportOk) ->
  (contains "Import error" s = false ->
   bot_module (w_locals w) = true /\ discord_module (w_locals w) = true) ->
  check_token E = Returns true ->
  preflight_create E = Returns tt ->
  preflight_login E = Returns tt ->
  create_bot E = Returns h ->
  is_set E 0 = false ->
  let x := iteration E w in
  In EvPreflightCreate (events x) /\
  In EvPreflightLogin (events x) /\
  In EvCreateBot (events x) /\
  In (EvRun h (mkGlobals None None (Some h))) (events x).
Proof.
  destruct w as [[f t0 c] [rc bm dm cls] p].
  cbn [w_globals w_locals fatal_error_state last_fatal_error_time
       bot_module discord_module].
  intros -> -> Hs Hlt Himp Hmod Htok Hcr Hlg Hcb H0. cbv zeta.
  apply (exceeds_true _ 600) in Hlt.
  unfold iteration, loop_body, attempt, handlers, check_fatal, recovery,
    import_modules.
  destruct (contains "Import error" s) eqn:Hc.
  - specialize (Himp eq_refl). run_goal; cbn [In]; repeat split; tauto.
  - destruct (Hmod eq_refl) as [-> ->]. run_goal; cbn [In]; repeat split; tauto.
Qed.

Lemma recovery_then_attempt_in_same_iteration_witness :
  In (EvRun 1 (mkGlobals None None (Some 1)))
     (events (iteration (env_at 601000000%Z) missing_token_world)).
Proof.
  refine (proj2 (proj2 (proj2
    (recovery_then_attempt_in_same_iteration
       (env_at 601000000%Z) missing_token_world "Token Discord manquant" 0%Z 1
       eq_refl eq_refl eq_refl _ _ _ eq_refl eq_refl eq_refl eq_refl eq_refl)))).
  - unfold Qlt; cbn; lia.
  - cbn. discriminate.
  - intros _. split; reflexivity.
Defined.

(** * Further properties of the reporter *)

(** ** The status record under repeated updates (main.py:467-523) *)

Ltac split_update :=
  unfold update_bot_status, instance_branch, fatal_branch, online_branch,
    offline_branch, update_failed;
  repeat match goal with
         | |- context [match fatal_error_state ?g with _ => _ end] =>
           destruct (fatal_error_state g)
         | |- context [if truthy ?s then _ else _] => destruct (truthy s)
         | |- context [match current_bot_instance ?g with _ => _ end] =>
           destruct (current_bot_instance g)
         | |- context [match is_ready ?v with _ => _ end] =>
           destruct (is_ready v) as [[|]|]
         end.

(** X12.  Two requests in a row that read the same shared variables and
    find the clients in the same condition leave the same status record
    but for [last_update]: the second update changes nothing else, and
    [/api/status] answers 200 both times. *)
Theorem api_status_twice app_start_time probe g t1 t2 bs :
  let r1 := api_status app_start_time probe g t1 bs in
  let r2 := api_status app_start_time probe g t2 (fst r1) in
  snd r1 = 200%Z /\ snd r2 = 200%Z /\
  with_last_update None (fst r2) = with_last_update None (fst r1).
Proof.
  cbv zeta. unfold api_status. cbn [fst snd].
  split; [ reflexivity | split; [ reflexivity |] ].
  destruct bs as [on fo os nm sv lu rc].
  unfold update_bot_status, instance_branch.
  destruct (fatal_error_state g) as [s|]; [ destruct (truthy s) |];
    try (destruct (current_bot_instance g) as [h|];
         [ destruct (is_ready (probe h)) as [[|]|] |]);
    destruct on, fo, os; reflexivity.
Qed.

Lemma update_keeps_status_ok app_start_time probe g now bs :
  status_ok bs -> status_ok (update_bot_status app_start_time probe g now bs).
Proof.
  destruct bs as [on fo os nm sv lu rc]. unfold status_ok. cbn.
  intros H. split_update; cbn; intros Hon; try discriminate Hon;
    (destruct on;
     [ destruct (H eq_refl); now split
     | split; [ destruct fo; discriminate | reflexivity ] ]).
Qed.

(** X13.  Starting from the initial status record, after any series of
    updates a bot that is marked online has a first online time and no
    offline time. *)
Theorem status_record_invariant app_start_time reads :
  status_ok (run_updates app_start_time reads initial_bot_status).
Proof.
  assert (G : forall bs, status_ok bs ->
                         status_ok (run_updates app_start_time reads bs)).
  { induction reads as [|[[g pr] now] rest IH]; intros bs H; cbn.
    - exact H.
    - apply IH, update_keeps_status_ok, H. }
  apply G. intros H. discriminate H.
Qed.

(** X14.  An update never changes a first online time that is set, and
    never lowers the reconnect count; it raises the count, by one,
    exactly when a bot marked online is found offline (no client, or
    [is_ready()] answering false) with no fatal error read: a bot taken
    offline by a fatal error, or by a probe that raises, is not
    counted. *)
Theorem update_first_online_and_reconnects app_start_time probe g now bs :
  let bs' := update_bot_status app_start_time probe g now bs in
  let found_offline :=
    current_bot_instance g = None \/
    exists h, current_bot_instance g = Some h /\
              is_ready (probe h) = Returns false in
  (forall t, first_online_time bs = Some t -> first_online_time bs' = Some t) /\
  reconnect_count bs <= reconnect_count bs' /\
  reconnect_count bs' <= S (reconnect_count bs) /\
  (reconnect_count bs' = S (reconnect_count bs) ->
   online bs = true /\ online bs' = false /\
   opt_truthy (fatal_error_state g) = false /\ found_offline) /\
  (online bs = true -> opt_truthy (fatal_error_state g) = false ->
   found_offline ->
   reconnect_count bs' = S (reconnect_count bs)) /\
  (opt_truthy (fatal_error_state g) = true ->
   reconnect_count bs' = reconnect_count bs) /\
  (forall h e, current_bot_instance g = Some h ->
               is_ready (probe h) = Raises e ->
               reconnect_count bs' = reconnect_count bs).
Proof.
  destruct bs as [on fo os nm sv lu rc]. cbv zeta.
  unfold opt_truthy.
  unfold update_bot_status, instance_branch, fatal_branch, online_branch,
    offline_branch, update_failed.
  destruct (fatal_error_state g) as [s|]; [ destruct (truthy s) |];
    try (destruct (current_bot_instance g) as [h|];
         [ destruct (is_ready (probe h)) as [[|]|] eqn:Hp |]);
    destruct on; cbn;
    (split; [ intros t H; try rewrite H; try assumption; reflexivity |]);
    (split; [ lia |]); (split; [ lia |]);
    (split; [ intros H; first [ exfalso; lia | repeat split; eauto ] |]);
    (split; [ intros Hon Hf Hoff;
              first [ discriminate | reflexivity
                    | destruct Hoff as [Hn | (h' & Hs & Hr)];
                      [ discriminate Hn
                      | injection Hs as <-; rewrite Hp in Hr;
                        discriminate Hr ] ] |]);
    (split; [ intros Hf; first [ reflexivity | discriminate Hf ] |]);
    intros h' e' Hs Hr; try reflexivity; try discriminate Hs;
    injection Hs as <-; rewrite Hp in Hr; discriminate Hr.
Qed.

Lemma update_first_online_and_reconnects_witness :
  first_online_time
    (update_bot_status 0%Z (fun _ => ready_view) (mkGlobals None None None)
                       5000000%Z stale_online_status) = Some 1000000%Z /\
  reconnect_count
    (update_bot_status 0%Z (fun _ => ready_view) (mkGlobals None None None)
                       5000000%Z stale_online_status) = 1 /\
  reconnect_count
    (update_bot_status 0%Z (fun _ => broken_view)
                       (mkGlobals None None (Some 1))
                       5000000%Z stale_online_status) = 0.
Proof.
  pose proof (update_first_online_and_reconnects
                0%Z (fun _ => ready_view) (mkGlobals None None None)
                5000000%Z stale_online_status) as H.
  pose proof (update_first_online_and_reconnects
                0%Z (fun _ => broken_view) (mkGlobals None None (Some 1))
                5000000%Z stale_online_status) as B.
  cbv zeta in H, B.
  exact (conj (proj1 H 1000000%Z eq_refl)
           (conj (proj1 (proj2 (proj2 (proj2 (proj2 H))))
                    eq_refl eq_refl (or_introl eq_refl))
                 (proj2 (proj2 (proj2 (proj2 (proj2 (proj2 B)))))
                    1 connection_reset eq_refl eq_refl))).
Defined.

(** X15.  While the bot stays offline, updates do not move
    [offline_since]: polling the reporter does not restart the time
    from which the grace period of [/health] is counted. *)
Theorem offline_since_is_stable app_start_time probe g now bs t :
  online bs = false ->
  offline_since bs = Some t ->
  let bs' := update_bot_status app_start_time probe g now bs in
  online bs' = false ->
  offline_since bs' = Some t.
Proof.
  destruct bs as [on fo os nm sv lu rc]. cbn. intros -> ->.
  split_update; cbn; intros H; try discriminate H; reflexivity.
Qed.

Lemma offline_since_is_stable_witness :
  offline_since
    (update_bot_status 0%Z (fun _ => ready_view) (mkGlobals None None None)
       9000000%Z
       (update_bot_status 0%Z (fun _ => ready_view) (mkGlobals None None None)
                          5000000%Z stale_online_status))
  = Some 5000000%Z.
Proof.
  apply (offline_since_is_stable 0%Z (fun _ => ready_view)
           (mkGlobals None None None) 9000000%Z _ 5000000%Z);
    reflexivity.
Defined.

(** ** [/ready] and [/health] (main.py:544-631) *)

(** X16.  [/ready] answers 200 exactly when the update reads no fatal
    error and finds a published client whose [is_ready()] returns true,
    and 503 otherwise; what the status record said before the request
    plays no part. *)
Theorem readiness_check_characterised app_start_time probe g t_upd now bs :
  let code := snd (fst (readiness_check app_start_time probe g t_upd now bs)) in
  let ready :=
    opt_truthy (fatal_error_state g) = false /\
    exists h, current_bot_instance g = Some h /\
              is_ready (probe h) = Returns true in
  (ready -> code = 200%Z) /\ (~ ready -> code = 503%Z).
Proof.
  cbv zeta. unfold readiness_check, opt_truthy.
  unfold update_bot_status, instance_branch, fatal_branch, online_branch,
    offline_branch, update_failed.
  destruct (fatal_error_state g) as [s|]; [ destruct (truthy s) |];
    try (destruct (current_bot_instance g) as [h|];
         [ destruct (is_ready (probe h)) as [[|]|e] eqn:Hr |]);
    cbn; split;
    try (intros _; reflexivity);
    try (intros (H & h' & H1 & H2); try discriminate H; try discriminate H1;
         injection H1 as <-; congruence);
    try (intros H; elim H; split; [ reflexivity |];
         eexists; split; [ reflexivity | assumption ]).
Qed.

Lemma readiness_check_characterised_witness :
  snd (fst (readiness_check 0%Z (fun _ => ready_view)
              (mkGlobals None None (Some 1)) 5000000%Z 5000001%Z
              initial_bot_status)) = 200%Z.
Proof.
  apply (proj1 (readiness_check_characterised
                  0%Z (fun _ => ready_view) (mkGlobals None None (Some 1))
                  5000000%Z 5000001%Z initial_bot_status)).
  split; [ reflexivity |]. exists 1. split; reflexivity.
Defined.

(** X17.  When [/ready] answers 200, a [/health] request whose update
    reads the same and whose handler reads no fatal error answers 200
    with [bot_online] true, however long the bot was offline before. *)
Theorem ready_implies_healthy
        app_start_time probe g t_upd now g' now' bs :
  snd (fst (readiness_check app_start_time probe g t_upd now bs)) = 200%Z ->
  opt_truthy (fatal_error_state g') = false ->
  let r := health_check app_start_time probe g t_upd g' now' bs in
  snd (fst r) = 200%Z /\
  field "status" (fst (fst r)) = Some (JString "healthy") /\
  field "bot_online" (fst (fst r)) = Some (JBool true).
Proof.
  unfold readiness_check, health_check. intros H Hg. cbv zeta.
  rewrite Hg.
  destruct (online (update_bot_status app_start_time probe g t_upd bs));
    [| discriminate H ].
  cbn. repeat split.
Qed.

Lemma ready_implies_healthy_witness :
  snd (fst (health_check 0%Z (fun _ => ready_view)
              (mkGlobals None None (Some 1)) 900000000%Z
              (mkGlobals None None (Some 1)) 900000001%Z
              initial_bot_status)) = 200%Z.
Proof.
  apply (ready_implies_healthy 0%Z (fun _ => ready_view)
           (mkGlobals None None (Some 1)) 900000000%Z 900000000%Z
           (mkGlobals None None (Some 1)) 900000001%Z initial_bot_status);
    reflexivity.
Defined.

(** X18.  When [is_ready()] raises for a bot that was never marked
    online and has no offline time yet, the update records nothing but
    the failure: [offline_since] stays unset, so [offline_duration] is 0
    and [/health] answers 200 at any time, and the next request finds
    the record in the same condition. *)
Theorem health_check_when_probe_raises
        app_start_time probe g_upd t_upd g now bs h e :
  opt_truthy (fatal_error_state g_upd) = false ->
  current_bot_instance g_upd = Some h ->
  is_ready (probe h) = Raises e ->
  online bs = false ->
  offline_since bs = None ->
  opt_truthy (fatal_error_state g) = false ->
  let r := health_check app_start_time probe g_upd t_upd g now bs in
  snd (fst r) = 200%Z /\
  field "offline_duration" (fst (fst r)) = Some (JNumber 0) /\
  online (snd r) = false /\
  offline_since (snd r) = None.
Proof.
  destruct bs as [on fo os nm sv lu rc]. cbn [online offline_since].
  intros Hu Hc Hr -> -> Hg. cbv zeta.
  unfold health_check. rewrite Hg.
  unfold update_bot_status, instance_branch, update_failed.
  unfold opt_truthy in Hu.
  destruct (fatal_error_state g_upd) as [s|];
    [ rewrite Hu |]; rewrite Hc, Hr; cbn; repeat split.
Qed.

Lemma health_check_when_probe_raises_witness :
  snd (fst (health_check 0%Z (fun _ => broken_view)
              (mkGlobals None None (Some 1)) 86400000000%Z
              (mkGlobals None None (Some 1)) 86400000001%Z
              initial_bot_status)) = 200%Z.
Proof.
  apply (health_check_when_probe_raises 0%Z (fun _ => broken_view)
           (mkGlobals None None (Some 1)) 86400000000%Z
           (mkGlobals None None (Some 1)) 86400000001%Z initial_bot_status
           1 connection_reset); reflexivity.
Defined.

(** ** [calculate_uptime] (main.py:451-465) *)

Lemma uptime_parts d :
  floordiv (total_seconds d) 3600 = (d / 3600000000)%Z /\
  floordiv (pymod (total_seconds d) 3600) 60 =
  ((d mod 3600000000) / 60000000)%Z.
Proof.
  assert (H1 : floordiv (total_seconds d) 3600 = (d / 3600000000)%Z).
  { unfold floordiv, total_seconds, Qfloor, Qdiv, Qmult, Qinv. cbn.
    now rewrite Z.mul_1_r. }
  split; [ exact H1 |].
  unfold pymod. rewrite H1.
  unfold floordiv, total_seconds, Qfloor, Qdiv, Qmult, Qinv, Qminus, Qplus,
    Qopp, inject_Z. cbn [Qnum Qden].
  change (Z.pos (1000000 * 1 * 60)) with 60000000%Z.
  rewrite !Z.mul_1_r.
  rewrite (Z.mod_eq d 3600000000) by lia.
  f_equal. lia.
Qed.

(** X19.  [calculate_uptime] answers nothing without a start time.  With
    one, the minutes it prints are from 0 to 59, hours and minutes
    together are the elapsed time rounded down to the minute, and the
    hours are printed only from one full hour on: an elapsed time below
    one hour, also a negative one, is printed as minutes alone. *)
Theorem calculate_uptime_parts now start :
  let d := (now - start)%Z in
  let hours := floordiv (total_seconds d) 3600 in
  let minutes := floordiv (pymod (total_seconds d) 3600) 60 in
  calculate_uptime now None = None /\
  (0 <= minutes < 60)%Z /\
  ((hours * 3600 + minutes * 60) * 1000000 <= d)%Z /\
  (d < (hours * 3600 + minutes * 60 + 60) * 1000000)%Z /\
  ((d < 3600000000)%Z ->
   calculate_uptime now (Some start) = Some (str_of_int minutes ++ "m")) /\
  ((3600000000 <= d)%Z ->
   calculate_uptime now (Some start) =
   Some (str_of_int hours ++ "h " ++ str_of_int minutes ++ "m")).
Proof.
  cbv zeta. unfold calculate_uptime.
  destruct (uptime_parts (now - start)%Z) as [-> ->].
  set (d := (now - start)%Z).
  pose proof (Z.div_mod d 3600000000 ltac:(lia)) as Hd.
  pose proof (Z.mod_pos_bound d 3600000000 ltac:(lia)) as Hm.
  pose proof (Z.div_mod (d mod 3600000000) 60000000 ltac:(lia)) as Hd2.
  pose proof (Z.mod_pos_bound (d mod 3600000000) 60000000 ltac:(lia)) as Hm2.
  set (h := (d / 3600000000)%Z) in *.
  set (r := (d mod 3600000000)%Z) in *.
  set (m := (r / 60000000)%Z) in *.
  set (r2 := (r mod 60000000)%Z) in *.
  repeat split; try lia.
  - intros Hlt. assert (Hh : (h <= 0)%Z) by lia.
    destruct (0 <? h)%Z eqn:Hb; [ apply Z.ltb_lt in Hb; lia | reflexivity ].
  - intros Hge. assert (Hh : (0 < h)%Z) by lia.
    apply Z.ltb_lt in Hh. now rewrite Hh.
Qed.

Lemma calculate_uptime_parts_witness :
  calculate_uptime 0%Z (Some 1000000%Z) = Some "59m".
Proof.
  refine (proj1 (proj2 (proj2 (proj2 (proj2
            (calculate_uptime_parts 0%Z 1000000%Z))))) _).
  lia.
Defined.

(** X20.  A bot that was never marked online gets no grace period of its
    own: its offline time counts from the start of the process, so once
    the process is more than 120 seconds old, as it is when a fatal
    error has just been cleared by the recovery, [/health] answers 503
    until the client is ready. *)
Theorem never_online_bot_unhealthy_after_grace
        app_start_time probe g_upd t_upd g now bs :
  online bs = false ->
  offline_since bs = None ->
  fatal_error_state g_upd = None ->
  (current_bot_instance g_upd = None \/
   exists h, current_bot_instance g_upd = Some h /\
             is_ready (probe h) = Returns false) ->
  opt_truthy (fatal_error_state g) = false ->
  (120 < total_seconds (now - app_start_time)%Z)%Q ->
  let r := health_check app_start_time probe g_upd t_upd g now bs in
  snd (fst r) = 503%Z /\
  field "offline_duration" (fst (fst r)) =
    Some (JNumber (total_seconds (now - app_start_time)%Z)) /\
  offline_since (snd r) = Some app_start_time.
Proof.
  destruct bs as [on fo os nm sv lu rc]. cbn [online offline_since].
  intros -> -> Hu Hc Hg Hlt. cbv zeta.
  apply (exceeds_true _ 120) in Hlt.
  unfold health_check. rewrite Hg.
  unfold update_bot_status, instance_branch, offline_branch. rewrite Hu.
  destruct Hc as [-> | (h & -> & ->)]; cbn [online offline_since];
    unfold grace_period; rewrite Hlt; cbn; repeat split.
Qed.

Lemma never_online_bot_unhealthy_after_grace_witness :
  snd (fst (health_check 0%Z (fun _ => ready_view)
              (mkGlobals None None None) 601000000%Z
              (mkGlobals None None None) 601000001%Z
              initial_bot_status)) = 503%Z.
Proof.
  apply (never_online_bot_unhealthy_after_grace
           0%Z (fun _ => ready_view) (mkGlobals None None None) 601000000%Z
           (mkGlobals None None None) 601000001%Z initial_bot_status);
    try reflexivity.
  now left.
Defined.
